(** * silx.gui.plot.Colormap: the colormap model and its display range

    A shallow embedding of the [Colormap] class of
    [src/silx/gui/plot/Colormap.py].  Python values are dynamically typed,
    so the attributes of a colormap are kept as values of [pyval]; the
    methods are Rocq functions over a record of these attributes.  Code that
    can raise returns an [outcome]; code that also logs a warning or emits
    the [sigChanged] signal runs in the small writer monad [eff]. *)

From Stdlib Require Import QArith Qcanon.
From stdpp Require Import base option list strings gmap.

Local Open Scope string_scope.
Local Open Scope list_scope.

(** ** Python values *)

(** Numbers.  Python ints and floats are modelled by exact rationals in
    canonical form, so that Leibniz equality is numeric equality; the
    orderings are decided through [Qccompare].  Not-a-number and the
    infinities are outside the model. *)
Definition Qc_ltb (x y : Qc) : bool :=
  match (x ?= y)%Qc with Lt => true | _ => false end.

Definition Qc_eqb (x y : Qc) : bool :=
  match (x ?= y)%Qc with Eq => true | _ => false end.

Definition Qc_min (x y : Qc) : Qc := if Qc_ltb y x then y else x.
Definition Qc_max (x y : Qc) : Qc := if Qc_ltb x y then y else x.

(** The number written [z] in the source, for an integer literal. *)
Definition num (z : Z) : Qc := Q2Qc (inject_Z z).

(** A [numpy.ndarray] of numbers: its shape and its elements in row-major
    order. *)
Record ndarray := NdArray { shape : list nat; flat : list Qc }.

Inductive pyval :=
| PyNone
| PyBool (b : bool)
| PyNum (x : Qc)
| PyStr (s : string)
| PyArray (a : ndarray)
| PyTuple (u v : pyval).

(** What [_setColors] may be given: [None], an array, a list or tuple (held
    as the array [numpy.array] builds from it), or an object of any other
    type. *)
Inductive colors_arg :=
| ColNone
| ColArray (a : ndarray)
| ColSeq (a : ndarray)
| ColOther.

(** ** Exceptions, outcomes and effects *)

(** The reasons for which this module raises [ValueError]; the comments give
    the message of the source. *)
Inductive value_error :=
| BadColorsType        (* colors should be None or a numpy.ndarray or a list or a tuple *)
| NoNameNoColors       (* The colormap should have a name defined or a tuple of colors *)
| UnknownNormalization (v : pyval) (* Given normalization is not recoginized (%s) *)
| AutoscaleWithBounds  (* autoscale is requested but vmin and vmax are also defined *)
| NoAutoscaleNoBounds  (* autoscale is not requested but vmin and vmax are both set to None *)
| AutoscaleNotBool     (* Autoscale value should be True or False *)
| AmbiguousTruth.      (* numpy: the truth value of an array is ambiguous *)

Inductive exn :=
| AssertionError
| TypeError
| ValueError (why : value_error)
| OverflowError.       (* int too large to convert to float *)

Inductive outcome (A : Type) :=
| Ok (a : A)
| Raise (e : exn).
Arguments Ok {A} a.
Arguments Raise {A} e.

#[export] Instance outcome_ret : MRet outcome := @Ok.
#[export] Instance outcome_bind : MBind outcome := fun A B f m =>
  match m with
  | Ok a => f a
  | Raise e => Raise e
  end.

(** What the logger receives. *)
Inductive warning :=
| UnsupportedLogBounds (vmin vmax : option Qc)
    (* Unsuported vmin (%s) and/or vmax (%s) given for a log scale
       Autoscale will be performed *)
| NormalizationNotGiven.
    (* Normalization not given in the dictionary, set by default to linear *)

Inductive event :=
| Warning (w : warning)   (* _logger.warning(w) *)
| SigChanged.             (* self.sigChanged.emit() *)

(** A computation that leaves a trace of events, and returns or raises. *)
Record eff (A : Type) := Eff { trace : list event; result : outcome A }.
Arguments Eff {A} trace result.
Arguments trace {A} e.
Arguments result {A} e.

#[export] Instance eff_ret : MRet eff := fun A a => Eff [] (Ok a).
#[export] Instance eff_bind : MBind eff := fun A B f m =>
  match result m with
  | Ok a => Eff (trace m ++ trace (f a)) (result (f a))
  | Raise e => Eff (trace m) (Raise e)
  end.

Definition lift {A} (o : outcome A) : eff A := Eff [] o.
Definition tell (ev : event) : eff unit := Eff [ev] (Ok tt).
Definition py_assert (b : bool) : outcome unit :=
  if b then Ok tt else Raise AssertionError.

(** ** Comparisons of Python values *)

(** [bool] is a subclass of [int]: [True] is 1 and [False] is 0. *)
Definition as_number (v : pyval) : option Qc :=
  match v with
  | PyBool true => Some 1%Qc
  | PyBool false => Some 0%Qc
  | PyNum x => Some x
  | _ => None
  end.

(** The truth value of [a == b].  On an array [==] is elementwise and the
    result has no truth value; values of unrelated types are unequal. *)
Fixpoint py_eq (a b : pyval) : outcome bool :=
  match a, b with
  | PyArray _, _ | _, PyArray _ => Raise (ValueError AmbiguousTruth)
  | PyNone, PyNone => Ok true
  | PyStr s, PyStr t => Ok (String.eqb s t)
  | PyTuple u v, PyTuple u' v' =>
      b1 ← py_eq u u'; if b1 : bool then py_eq v v' else Ok false
  | _, _ =>
      match as_number a, as_number b with
      | Some x, Some y => Ok (Qc_eqb x y)
      | _, _ => Ok false
      end
  end.

(** The truth value of [a < q] for a number [q] (Python 3: ordering [None],
    a string or a tuple against a number is a [TypeError]). *)
Definition py_lt (a : pyval) (q : Qc) : outcome bool :=
  match as_number a with
  | Some x => Ok (Qc_ltb x q)
  | None =>
      match a with
      | PyArray _ => Raise (ValueError AmbiguousTruth)
      | _ => Raise TypeError
      end
  end.

(** [v in t] for a tuple [t]. *)
Fixpoint py_in (v : pyval) (t : list pyval) : outcome bool :=
  match t with
  | [] => Ok false
  | x :: t' => b ← py_eq v x; if b : bool then Ok true else py_in v t'
  end.

Definition is_None (v : pyval) : bool :=
  match v with PyNone => true | _ => false end.

(** ** Module constants *)

Definition LINEAR : string := "linear".
Definition LOGARITHM : string := "log".
Definition NORMALIZATIONS : list string := [LINEAR; LOGARITHM].

Definition DEFAULT_MIN_LIN : pyval := PyNum (num 0).
Definition DEFAULT_MAX_LIN : pyval := PyNum (num 1).
Definition DEFAULT_MIN_LOG : pyval := PyNum (num 1).
Definition DEFAULT_MAX_LOG : pyval := PyNum (num 10).

(** ** The Colormap object *)

(** The attributes of a [Colormap].  [_autoscale] exists only once
    [_setFromDict] has run. *)
Record Colormap := MkColormap {
  _name : pyval;
  _colors : pyval;
  _normalization : pyval;
  _vmin : pyval;
  _vmax : pyval;
  _autoscale : option bool
}.

Definition of_option {A} (f : A -> pyval) (o : option A) : pyval :=
  match o with Some a => f a | None => PyNone end.

(** [_setColors]: the new value of [self._colors]. *)
Definition _setColors (colors : colors_arg) : outcome pyval :=
  match colors with
  | ColOther => Raise (ValueError BadColorsType)
  | ColSeq a => Ok (PyArray a)
  | ColArray a => Ok (PyArray a)
  | ColNone => Ok PyNone
  end.

(** [vmin is not None and vmin < 1.0] *)
Definition below_one (v : option Qc) : bool :=
  match v with
  | Some x => Qc_ltb x 1%Qc
  | None => false
  end.

(** A string object given as an argument.  The interpreter keeps one
    object for each string constant of the program text, a literal or a
    module constant such as [LOGARITHM]: [interned] says that the object is
    that one.  A string built at run time (joined, formatted, read from a
    file) is an object of its own, also when its characters are those of a
    constant. *)
Record str_object := StrObject { interned : bool; chars : string }.

(** The object of the constant [s].  A string written where the model
    expects a string object stands for this one, as a literal or a module
    constant does in the source. *)
Definition constant (s : string) : str_object := StrObject true s.
Coercion constant : string >-> str_object.

(** An object built at run time with the characters [s]. *)
Definition built (s : string) : str_object := StrObject false s.

(** [x is c], for a module constant [c]. *)
Definition is_constant (x : str_object) (c : string) : bool :=
  interned x && String.eqb (chars x) c.

(** The integer nearest to [n / d], a tie going to the even one
    ([0 <= n], [0 < d]). *)
Definition round_half_even (n d : Z) : Z :=
  let q := (n / d)%Z in
  match (2 * (n mod d) ?= d)%Z with
  | Lt => q
  | Gt => (q + 1)%Z
  | Eq => if Z.even q then q else (q + 1)%Z
  end.

(** [a / (q * 2 ^ e)] as a fraction of integers. *)
Definition scaled (a q e : Z) : Z * Z :=
  if (0 <=? e)%Z then (a, q * 2 ^ e)%Z else (a * 2 ^ (- e), q)%Z.

(** The double nearest to [a / q] for [0 < a] and [0 < q], or [None] when it
    is beyond the largest double: the exponent [e] puts the quotient in
    [2 ^ 52 .. 2 ^ 53], or is the least exponent -1074 of a subnormal, and
    the 53-bit significand is rounded to nearest, ties to even. *)
Definition binary64 (a q : Z) : option Q :=
  let e0 := (Z.log2 a - Z.log2 q - 52)%Z in
  let e1 :=
    if ((scaled a q e0).1 / (scaled a q e0).2 <? 2 ^ 52)%Z
    then (e0 - 1)%Z else e0 in
  let e := Z.max e1 (-1074) in
  let m := round_half_even (scaled a q e).1 (scaled a q e).2 in
  if (0 <=? e)%Z then
    if (2 ^ 1024 <=? m * 2 ^ e)%Z then None else Some (inject_Z (m * 2 ^ e))
  else Some (Qmake m (Z.to_pos (2 ^ (- e)))).

(** [float(x)] for a number: a float is returned as it is, an int becomes
    the nearest double, and [OverflowError] is raised for an int beyond the
    doubles. *)
Definition py_float (x : Qc) : outcome Qc :=
  match Qnum x with
  | Z0 => Ok x
  | Zpos a =>
      match binary64 (Zpos a) (Zpos (Qden x)) with
      | Some y => Ok (Q2Qc (Qred y))
      | None => Raise OverflowError
      end
  | Zneg a =>
      match binary64 (Zpos a) (Zpos (Qden x)) with
      | Some y => Ok (Q2Qc (Qred (- y)))
      | None => Raise OverflowError
      end
  end.

(** [float(v) if v is not None else None] *)
Definition float_or_None (v : option Qc) : outcome pyval :=
  match v with
  | Some x => y ← py_float x; mret (PyNum y)
  | None => Ok PyNone
  end.

(** [Colormap.__init__].  [name] is a string or [None], on which
    [str(name)] changes nothing; the normalization is a string object, whose
    characters the assertion and [str] read and whose identity
    [normalization is LOGARITHM] tests; the bounds are numbers or [None]. *)
Definition __init__ (name : option string) (colors : colors_arg)
    (normalization : str_object) (vmin vmax : option Qc) : eff Colormap :=
  _ ← lift (py_assert (bool_decide (chars normalization ∈ NORMALIZATIONS)));
  bounds ←
    (if is_constant normalization LOGARITHM then
       if below_one vmin || below_one vmax then
         _ ← tell (Warning (UnsupportedLogBounds vmin vmax));
         mret (None, None)
       else mret (vmin, vmax)
     else mret (vmin, vmax));
  colors' ← lift (_setColors colors);
  vmin' ← lift (float_or_None (fst bounds));
  vmax' ← lift (float_or_None (snd bounds));
  mret {| _name := of_option PyStr name;
          _colors := colors';
          _normalization := PyStr (chars normalization);
          _vmin := vmin';
          _vmax := vmax';
          _autoscale := None |}.

(** [Colormap()] with every argument at its default. *)
Definition default_args : eff Colormap :=
  __init__ (Some "gray") ColNone LINEAR None None.

(** ** Accessors *)

Definition isAutoscale (self : Colormap) : bool :=
  is_None (_vmin self) || is_None (_vmax self).

Definition getName (self : Colormap) : pyval := _name self.
Definition getNormalization (self : Colormap) : pyval := _normalization self.
Definition getVMin (self : Colormap) : pyval := _vmin self.
Definition getVMax (self : Colormap) : pyval := _vmax self.

(** [getColorMapLUT]: the copy has the contents of the table. *)
Definition getColorMapLUT (self : Colormap) (copy : bool) : pyval := _colors self.

(** ** Mutators

    A mutator is run on the object and gives the object after the call
    together with what the call did: the events it produced and whether it
    returned or raised. *)

Definition with_name (v : pyval) (self : Colormap) : Colormap :=
  MkColormap v (_colors self) (_normalization self) (_vmin self) (_vmax self)
    (_autoscale self).
Definition with_colors (v : pyval) (self : Colormap) : Colormap :=
  MkColormap (_name self) v (_normalization self) (_vmin self) (_vmax self)
    (_autoscale self).
Definition with_normalization (v : pyval) (self : Colormap) : Colormap :=
  MkColormap (_name self) (_colors self) v (_vmin self) (_vmax self)
    (_autoscale self).
Definition with_vmin (v : pyval) (self : Colormap) : Colormap :=
  MkColormap (_name self) (_colors self) (_normalization self) v (_vmax self)
    (_autoscale self).
Definition with_vmax (v : pyval) (self : Colormap) : Colormap :=
  MkColormap (_name self) (_colors self) (_normalization self) (_vmin self) v
    (_autoscale self).

Definition emitted : eff unit := tell SigChanged.

(** [setName]: [name] is a string, which [str] leaves as it is. *)
Definition setName (name : string) (self : Colormap) : Colormap * eff unit :=
  (with_colors PyNone (with_name (PyStr name) self), emitted).

(** [setNormalization]: [norm] is a string, which [str] leaves as it is. *)
Definition setNormalization (norm : string) (self : Colormap)
    : Colormap * eff unit :=
  (with_normalization (PyStr norm) self, emitted).

Definition setVMin (vmin : pyval) (self : Colormap) : Colormap * eff unit :=
  (with_vmin vmin self, emitted).

Definition setVMax (vmax : pyval) (self : Colormap) : Colormap * eff unit :=
  (with_vmax vmax self, emitted).

Definition setVMinVMax (vmin vmax : pyval) (self : Colormap)
    : Colormap * eff unit :=
  (with_vmax vmax (with_vmin vmin self), emitted).

(** [len(colors)]: the first dimension of an array; [None] and a
    zero-dimensional array have no length. *)
Definition py_len (colors : colors_arg) : outcome nat :=
  match colors with
  | ColArray a | ColSeq a =>
      match shape a with
      | n :: _ => Ok n
      | [] => Raise TypeError
      end
  | _ => Raise TypeError
  end.

(** [setColorMapLUT].  When [len(colors)] raises, [_setColors] has already
    replaced the table. *)
Definition setColorMapLUT (colors : colors_arg) (keepName : bool)
    (self : Colormap) : Colormap * eff unit :=
  match _setColors colors with
  | Raise e => (self, lift (Raise e))
  | Ok c =>
      let self := with_colors c self in
      match py_len colors with
      | Raise e => (self, lift (Raise e))
      | Ok n =>
          let self := if Nat.eqb n 0 then with_colors PyNone self else self in
          let self := if keepName then self else with_name (PyStr "") self in
          (self, emitted)
      end
  end.

(** ** The statistics provider *)

(** A data array: the samples of an array with at least one element, in
    any order of traversal. *)
Record samples := Samples { first : Qc; others : list Qc }.

Definition values (data : samples) : list Qc := first data :: others data.

(** What [min_max] returns; [min_positive] is [None] when undefined. *)
Record MinMaxResult := MkMinMax {
  minimum : Qc;
  maximum : Qc;
  min_positive : option Qc
}.

Definition positive_min (p : option Qc) (x : Qc) : option Qc :=
  if Qc_ltb 0%Qc x then
    match p with
    | Some y => Some (Qc_min y x)
    | None => Some x
    end
  else p.

Definition observe (r : MinMaxResult) (x : Qc) : MinMaxResult :=
  {| minimum := Qc_min (minimum r) x;
     maximum := Qc_max (maximum r) x;
     min_positive := positive_min (min_positive r) x |}.

(** Modelled from the spec: [silx.math.combo.min_max], the statistics
    routine of the numerics library, is imported by the source and is not
    part of it.  It computes three statistics in one pass over the data: the
    minimum, the maximum and, when requested, the smallest strictly positive
    value, which is defined only if at least one positive value exists. *)
Definition min_max (data : samples) (want_min_positive : bool) : MinMaxResult :=
  let r :=
    fold_left observe (others data)
      {| minimum := first data;
         maximum := first data;
         min_positive := positive_min None (first data) |} in
  if want_min_positive then r
  else {| minimum := minimum r; maximum := maximum r; min_positive := None |}.

(** ** The display range *)

Definition _getDefaultMin (self : Colormap) : outcome pyval :=
  linear ← py_eq (_normalization self) (PyStr LINEAR);
  mret (if linear : bool then DEFAULT_MIN_LIN else DEFAULT_MIN_LOG).

Definition _getDefaultMax (self : Colormap) : outcome pyval :=
  linear ← py_eq (_normalization self) (PyStr LINEAR);
  mret (if linear : bool then DEFAULT_MAX_LIN else DEFAULT_MAX_LOG).

(** [getColorMapRange]: the pair [(vmin, vmax)] it returns.  [result] is
    bound only when [data] is not [None]. *)
Definition getColorMapRange (self : Colormap) (data : option samples)
    : outcome (pyval * pyval) :=
  let vmin := _vmin self in
  let vmax := _vmax self in
  let result := (fun d => min_max d true) <$> data in
  vmin ←
    (if is_None vmin then
       match result with
       | Some r => Ok (PyNum (minimum r))
       | None => _getDefaultMin self
       end
     else Ok vmin);
  vmax ←
    (if is_None vmax then
       match result with
       | Some r => Ok (PyNum (maximum r))
       | None => _getDefaultMax self
       end
     else Ok vmax);
  match result with
  | Some r =>
      log ← py_eq (getNormalization self) (PyStr LOGARITHM);
      if log : bool then
        negative ← py_lt vmin 0%Qc;
        let vmin :=
          if negative : bool then of_option PyNum (min_positive r) else vmin in
        negative ← py_lt vmax 0%Qc;
        let vmax :=
          if negative : bool
          then PyTuple (of_option PyNum (min_positive r)) (PyNum (maximum r))
          else vmax in
        mret (vmin, vmax)
      else mret (vmin, vmax)
  | None => mret (vmin, vmax)
  end.

(** ** The dictionary form *)

(** [_toDict]; the copy of the table has its contents. *)
Definition _toDict (self : Colormap) : gmap string pyval :=
  <["name" := _name self]>
  (<["colors" := _colors self]>
  (<["vmin" := _vmin self]>
  (<["vmax" := _vmax self]>
  (<["autoscale" := PyBool (isAutoscale self)]>
  (<["normalization" := _normalization self]> ∅))))).

(** [dic[key] if key in dic else None] *)
Definition get_or_None (dic : gmap string pyval) (key : string) : pyval :=
  default PyNone (dic !! key).

(** ['... (%s)' % v]: a tuple on the right of [%] is taken as the list of
    arguments, and a pair is one argument too many. *)
Definition format_one (v : pyval) : outcome unit :=
  match v with
  | PyTuple _ _ => Raise TypeError
  | _ => Ok tt
  end.

(** The checks of [_setFromDict] and the object it then writes; nothing is
    assigned to [self] before the last check has passed. *)
Definition _setFromDict_checked (dic : gmap string pyval) : eff Colormap :=
  let name := get_or_None dic "name" in
  let colors := get_or_None dic "colors" in
  let vmin := get_or_None dic "vmin" in
  let vmax := get_or_None dic "vmax" in
  normalization ←
    match dic !! "normalization" with
    | Some v => mret v
    | None => _ ← tell (Warning NormalizationNotGiven); mret (PyStr LINEAR)
    end;
  _ ← lift (if is_None name && is_None colors
            then Raise (ValueError NoNameNoColors) else Ok tt);
  known ← lift (py_in normalization (PyStr <$> NORMALIZATIONS));
  _ ← lift (if known : bool then Ok tt
            else _ ← format_one normalization;
                 Raise (ValueError (UnknownNormalization normalization)));
  _ ← lift (match dic !! "autoscale" with
            | Some (PyBool true) =>
                if negb (is_None vmin) || negb (is_None vmax)
                then Raise (ValueError AutoscaleWithBounds) else Ok tt
            | Some (PyBool false) =>
                if is_None vmin && is_None vmax
                then Raise (ValueError NoAutoscaleNoBounds) else Ok tt
            | Some _ => Raise (ValueError AutoscaleNotBool)
            | None => Ok tt
            end);
  _ ← emitted;
  mret {| _name := name;
          _colors := colors;
          _vmin := vmin;
          _vmax := vmax;
          _autoscale := Some (is_None vmin && is_None vmax);
          _normalization := normalization |}.

(** [_setFromDict]: on an exception [self] is as it was. *)
Definition _setFromDict (dic : gmap string pyval) (self : Colormap)
    : Colormap * eff unit :=
  let run := _setFromDict_checked dic in
  match result run with
  | Ok self' => (self', Eff (trace run) (Ok tt))
  | Raise e => (self, Eff (trace run) (Raise e))
  end.

(** [_fromDict] *)
Definition _fromDict (dic : gmap string pyval) : eff Colormap :=
  colormap ← __init__ (Some "") ColNone LINEAR None None;
  let call := _setFromDict dic colormap in
  _ ← call.2;
  mret call.1.

(** ** Equality *)

(** [numpy.asarray]: the shape and the elements.  A value that is not an
    array becomes a zero-dimensional array holding it; a pair is taken as a
    one-dimensional array of its two components. *)
Definition asarray (v : pyval) : list nat * list pyval :=
  match v with
  | PyArray a => (shape a, PyNum <$> flat a)
  | PyTuple u v => ([2%nat], [u; v])
  | _ => ([], [v])
  end.

Fixpoint all_equal (xs ys : list pyval) : bool :=
  match xs, ys with
  | [], [] => true
  | x :: xs', y :: ys' =>
      match py_eq x y with
      | Ok true => all_equal xs' ys'
      | _ => false
      end
  | _, _ => false
  end.

(** [numpy.array_equal]: same shape and all elements equal. *)
Definition array_equal (a1 a2 : pyval) : bool :=
  bool_decide ((asarray a1).1 = (asarray a2).1)
  && all_equal (asarray a1).2 (asarray a2).2.

(** [Colormap.__eq__]; [and] stops at the first comparison that is false. *)
Definition __eq__ (self other : Colormap) : outcome bool :=
  names ← py_eq (getName self) (getName other);
  if negb names then Ok false else
  norms ← py_eq (getNormalization self) (getNormalization other);
  if negb norms then Ok false else
  vmins ← py_eq (getVMin self) (getVMin other);
  if negb vmins then Ok false else
  vmaxs ← py_eq (getVMax self) (getVMax other);
  if negb vmaxs then Ok false else
  Ok (array_equal (getColorMapLUT self true) (getColorMapLUT other true)).

(** ** Item access *)

(** What [self[item]] gives: a value, or [KeyError(item)]. *)
Inductive item_outcome :=
| Item (v : pyval)
| KeyError (item : string).

(** [Colormap.__getitem__], for a string key. *)
Definition __getitem__ (self : Colormap) (item : string) : item_outcome :=
  if String.eqb item "autoscale" then Item (PyBool (isAutoscale self))
  else if String.eqb item "name" then Item (getName self)
  else if String.eqb item "normalization" then Item (getNormalization self)
  else if String.eqb item "vmin" then Item (getVMin self)
  else if String.eqb item "vmax" then Item (getVMax self)
  else if String.eqb item "colors" then Item (getColorMapLUT self false)
  else KeyError item.

(** ** Copy *)

(** The attributes as arguments of the constructor, for attributes of the
    types the class docstring gives them; an attribute of another type has
    no reading here. *)
Definition name_arg (v : pyval) : option (option string) :=
  match v with
  | PyNone => Some None
  | PyStr s => Some (Some s)
  | _ => None
  end.

Definition bound_arg (v : pyval) : option (option Qc) :=
  match v with
  | PyNone => Some None
  | PyNum x => Some (Some x)
  | _ => None
  end.

Definition table_arg (v : pyval) : option colors_arg :=
  match v with
  | PyNone => Some ColNone
  | PyArray a => Some (ColArray a)
  | _ => None
  end.

Definition normalization_arg (v : pyval) : option string :=
  match v with
  | PyStr s => Some s
  | _ => None
  end.

(** [Colormap.copy]: the constructor run on the attributes, the table
    copied.  It is given for a colormap whose attributes have the types of
    the class docstring, and is [None] for any other.  An attribute does
    not record whether its string is the object of a constant, which the
    constructor tests on a ['log'] normalization with a bound below 1: there
    too [copy] is [None].  Everywhere else the constructor does the same
    for both objects, and is run here on the constant. *)
Definition copy (self : Colormap) : option (eff Colormap) :=
  name ← name_arg (_name self);
  colors ← table_arg (_colors self);
  vmin ← bound_arg (_vmin self);
  vmax ← bound_arg (_vmax self);
  normalization ← normalization_arg (_normalization self);
  if String.eqb normalization LOGARITHM && (below_one vmin || below_one vmax)
  then None
  else Some (__init__ name colors normalization vmin vmax).

(** A colormap whose attributes have the types of the class docstring. *)
Definition typed_colormap (name : option string) (table : option ndarray)
    (normalization : string) (vmin vmax : option Qc) (autoscale : option bool)
    : Colormap :=
  MkColormap (of_option PyStr name) (of_option PyArray table)
    (PyStr normalization) (of_option PyNum vmin) (of_option PyNum vmax)
    autoscale.

(** The table of such a colormap, as [copy] hands it to the constructor. *)
Definition table_colors (table : option ndarray) : colors_arg :=
  match table with
  | Some a => ColArray a
  | None => ColNone
  end.

(** * Vocabulary of the properties *)

(** ** Statistics *)

(** [m] is the least element of [l]. *)
Definition least (m : Qc) (l : list Qc) : Prop :=
  m ∈ l /\ forall x, x ∈ l -> (m <= x)%Qc.

(** [m] is the greatest element of [l]. *)
Definition greatest (m : Qc) (l : list Qc) : Prop :=
  m ∈ l /\ forall x, x ∈ l -> (x <= m)%Qc.

(** [p] is the least strictly positive element of [l], or [None] when [l]
    has no such element. *)
Definition least_positive (p : option Qc) (l : list Qc) : Prop :=
  match p with
  | Some y => y ∈ l /\ (0 < y)%Qc /\ forall x, x ∈ l -> (0 < x)%Qc -> (y <= x)%Qc
  | None => forall x, x ∈ l -> ~ (0 < x)%Qc
  end.

Definition summarises (r : MinMaxResult) (l : list Qc) : Prop :=
  least (minimum r) l /\ greatest (maximum r) l
  /\ least_positive (min_positive r) l.

(** ** Invariant and typing of the attributes *)

(** The normalization is one of the two managed ones. *)
Definition valid_normalization (self : Colormap) : Prop :=
  exists s, _normalization self = PyStr s /\ s ∈ NORMALIZATIONS.

(** The types the attributes have by the data model: a name that is [None]
    or a string, a normalization that is a string, bounds that are [None] or
    numbers, a color table that is [None] or an array. *)
Definition plain (v : pyval) : bool :=
  match v with PyNone | PyNum _ | PyStr _ => true | _ => false end.

Definition name_typed (v : pyval) : bool :=
  match v with PyNone | PyStr _ => true | _ => false end.

Definition bound_typed (v : pyval) : bool :=
  match v with PyNone | PyNum _ => true | _ => false end.

Definition normalization_typed (v : pyval) : bool :=
  match v with PyStr _ => true | _ => false end.

Definition colors_typed (v : pyval) : bool :=
  match v with PyNone | PyArray _ => true | _ => false end.

Definition well_typed (self : Colormap) : bool :=
  name_typed (_name self) && normalization_typed (_normalization self)
  && bound_typed (_vmin self) && bound_typed (_vmax self)
  && colors_typed (_colors self).

(** The five fields [__eq__] reads agree. *)
Definition same_fields (a b : Colormap) : Prop :=
  _name a = _name b /\ _normalization a = _normalization b
  /\ _vmin a = _vmin b /\ _vmax a = _vmax b /\ _colors a = _colors b.

(** ** Dictionaries *)

(** The verdict of the checks of [_setFromDict], without the trace. *)
Definition verdict (dic : gmap string pyval) : outcome Colormap :=
  let name := get_or_None dic "name" in
  let colors := get_or_None dic "colors" in
  let vmin := get_or_None dic "vmin" in
  let vmax := get_or_None dic "vmax" in
  let normalization := default (PyStr LINEAR) (dic !! "normalization") in
  if is_None name && is_None colors then Raise (ValueError NoNameNoColors) else
  match py_in normalization (PyStr <$> NORMALIZATIONS) with
  | Raise e => Raise e
  | Ok false =>
      match format_one normalization with
      | Raise e => Raise e
      | Ok _ => Raise (ValueError (UnknownNormalization normalization))
      end
  | Ok true =>
      let written :=
        MkColormap name colors normalization vmin vmax
          (Some (is_None vmin && is_None vmax)) in
      match dic !! "autoscale" with
      | Some (PyBool true) =>
          if negb (is_None vmin) || negb (is_None vmax)
          then Raise (ValueError AutoscaleWithBounds) else Ok written
      | Some (PyBool false) =>
          if is_None vmin && is_None vmax
          then Raise (ValueError NoAutoscaleNoBounds) else Ok written
      | Some _ => Raise (ValueError AutoscaleNotBool)
      | None => Ok written
      end
  end.

(** The normalization entry can be written into the error message: it is
    not a pair. *)
Definition formattable (o : option pyval) : Prop :=
  forall u v, o <> Some (PyTuple u v).

(** The name, colors and normalization entries pass their checks. *)
Definition head_accepted (dic : gmap string pyval) : Prop :=
  (get_or_None dic "name" <> PyNone \/ get_or_None dic "colors" <> PyNone)
  /\ (dic !! "normalization" = None
      \/ exists s, dic !! "normalization" = Some (PyStr s) /\ s ∈ NORMALIZATIONS).

(** The ways in which the autoscale entry contradicts the bounds. *)
Inductive autoscale_conflict (dic : gmap string pyval) : value_error -> Prop :=
| conflict_true :
    dic !! "autoscale" = Some (PyBool true) ->
    get_or_None dic "vmin" <> PyNone \/ get_or_None dic "vmax" <> PyNone ->
    autoscale_conflict dic AutoscaleWithBounds
| conflict_false :
    dic !! "autoscale" = Some (PyBool false) ->
    get_or_None dic "vmin" = PyNone -> get_or_None dic "vmax" = PyNone ->
    autoscale_conflict dic NoAutoscaleNoBounds
| conflict_other v :
    dic !! "autoscale" = Some v -> (forall b, v <> PyBool b) ->
    autoscale_conflict dic AutoscaleNotBool.

(** The dictionaries [{'colors': None, 'name': None}],
    [{'autoscale': True, 'vmin': 3, 'name': 'gray'}],
    [{'autoscale': False, 'name': 'gray'}] and
    [{'autoscale': 1, 'name': 'gray'}]. *)
Definition dict_nothing : gmap string pyval :=
  <["colors" := PyNone]> (<["name" := PyNone]> ∅).
Definition dict_autoscale_vmin : gmap string pyval :=
  <["autoscale" := PyBool true]>
  (<["vmin" := PyNum (num 3)]> (<["name" := PyStr "gray"]> ∅)).
Definition dict_fixed_no_bounds : gmap string pyval :=
  <["autoscale" := PyBool false]> (<["name" := PyStr "gray"]> ∅).
Definition dict_autoscale_number : gmap string pyval :=
  <["autoscale" := PyNum (num 1)]> (<["name" := PyStr "gray"]> ∅).

(** [Colormap()] *)
Definition gray_linear : Colormap :=
  MkColormap (PyStr "gray") PyNone (PyStr LINEAR) PyNone PyNone None.

(** The autoscale entry, when present, agrees with the bounds. *)
Definition autoscale_consistent (dic : gmap string pyval) : Prop :=
  match dic !! "autoscale" with
  | None => True
  | Some (PyBool true) =>
      get_or_None dic "vmin" = PyNone /\ get_or_None dic "vmax" = PyNone
  | Some (PyBool false) =>
      get_or_None dic "vmin" <> PyNone \/ get_or_None dic "vmax" <> PyNone
  | Some _ => False
  end.

(** What an accepted dictionary makes of the colormap: every attribute is
    read from the dictionary, a missing key giving [None], and a missing
    normalization ['linear']. *)
Definition written (dic : gmap string pyval) : Colormap :=
  MkColormap (get_or_None dic "name") (get_or_None dic "colors")
    (default (PyStr LINEAR) (dic !! "normalization"))
    (get_or_None dic "vmin") (get_or_None dic "vmax")
    (Some (is_None (get_or_None dic "vmin") && is_None (get_or_None dic "vmax"))).

(** A bound the logarithmic scale accepts at construction: [None], or a
    number that is at least 1. *)
Definition loggable (v : option Qc) : Prop :=
  forall x, v = Some x -> (1 <= x)%Qc.

(** The normalization and bounds for which the constructor keeps the
    bounds: a managed normalization, and no bound below 1 when it is the
    object [LOGARITHM]. *)
Definition bounds_kept (normalization : str_object) (vmin vmax : option Qc)
    : Prop :=
  chars normalization ∈ NORMALIZATIONS
  /\ (is_constant normalization LOGARITHM = true ->
      loggable vmin /\ loggable vmax).

(** A bound that [float] returns as it is: [None], a float, or an int that
    is exactly a double. *)
Definition float_bound (v : option Qc) : Prop :=
  forall x, v = Some x -> py_float x = Ok x.

(** * Properties *)

(** ** Numbers *)

Lemma Qc_ltb_lt (x y : Qc) : Qc_ltb x y = true <-> (x < y)%Qc.
Proof.
  unfold Qc_ltb. rewrite Qclt_alt.
  destruct (x ?= y)%Qc; split; congruence.
Qed.

Lemma Qc_ltb_ge (x y : Qc) : Qc_ltb x y = false <-> (y <= x)%Qc.
Proof.
  rewrite Qcle_ngt, <- Qc_ltb_lt. destruct (Qc_ltb x y); split; congruence.
Qed.

Lemma Qc_eqb_eq (x y : Qc) : Qc_eqb x y = true <-> x = y.
Proof.
  unfold Qc_eqb. rewrite Qceq_alt.
  destruct (x ?= y)%Qc; split; congruence.
Qed.

Lemma Qc_eqb_refl (x : Qc) : Qc_eqb x x = true.
Proof. by apply Qc_eqb_eq. Qed.

Lemma Qc_eqb_neq (x y : Qc) : Qc_eqb x y = false <-> x <> y.
Proof.
  rewrite <- Qc_eqb_eq. destruct (Qc_eqb x y); split; congruence.
Qed.

Lemma Qc_min_spec (x y : Qc) :
  (Qc_min x y = x \/ Qc_min x y = y)
  /\ (Qc_min x y <= x)%Qc /\ (Qc_min x y <= y)%Qc.
Proof.
  unfold Qc_min. destruct (Qc_ltb y x) eqn:E.
  - apply Qc_ltb_lt in E. split; [by right|].
    split; [by apply Qclt_le_weak | apply Qcle_refl].
  - apply Qc_ltb_ge in E. split; [by left|].
    split; [apply Qcle_refl | done].
Qed.

Lemma Qc_max_spec (x y : Qc) :
  (Qc_max x y = x \/ Qc_max x y = y)
  /\ (x <= Qc_max x y)%Qc /\ (y <= Qc_max x y)%Qc.
Proof.
  unfold Qc_max. destruct (Qc_ltb x y) eqn:E.
  - apply Qc_ltb_lt in E. split; [by right|].
    split; [by apply Qclt_le_weak | apply Qcle_refl].
  - apply Qc_ltb_ge in E. split; [by left|].
    split; [apply Qcle_refl | done].
Qed.

(** ** The statistics *)

Lemma least_snoc m l x : least m l -> least (Qc_min m x) (l ++ [x]).
Proof.
  intros [Hin Hle]. destruct (Qc_min_spec m x) as ([E|E] & Hm & Hx).
  - split.
    + rewrite E. apply elem_of_app. by left.
    + intros y [Hy|Hy%list_elem_of_singleton]%elem_of_app.
      * eapply Qcle_trans; [exact Hm | by apply Hle].
      * by subst y.
  - split.
    + rewrite E. apply elem_of_app. right. by apply list_elem_of_singleton.
    + intros y [Hy|Hy%list_elem_of_singleton]%elem_of_app.
      * eapply Qcle_trans; [exact Hm | by apply Hle].
      * by subst y.
Qed.

Lemma greatest_snoc m l x : greatest m l -> greatest (Qc_max m x) (l ++ [x]).
Proof.
  intros [Hin Hle]. destruct (Qc_max_spec m x) as ([E|E] & Hm & Hx).
  - split.
    + rewrite E. apply elem_of_app. by left.
    + intros y [Hy|Hy%list_elem_of_singleton]%elem_of_app.
      * eapply Qcle_trans; [by apply Hle | exact Hm].
      * by subst y.
  - split.
    + rewrite E. apply elem_of_app. right. by apply list_elem_of_singleton.
    + intros y [Hy|Hy%list_elem_of_singleton]%elem_of_app.
      * eapply Qcle_trans; [by apply Hle | exact Hm].
      * by subst y.
Qed.

Lemma least_positive_snoc p l x :
  least_positive p l -> least_positive (positive_min p x) (l ++ [x]).
Proof.
  unfold positive_min. destruct (Qc_ltb 0 x) eqn:Hx.
  - apply Qc_ltb_lt in Hx. destruct p as [y|]; simpl.
    + intros (Hin & Hpos & Hle).
      destruct (Qc_min_spec y x) as ([E|E] & Hm & Hmx).
      * rewrite E. split; [apply elem_of_app; by left|]. split; [done|].
        intros z [Hz|Hz%list_elem_of_singleton]%elem_of_app Hzpos.
        -- by apply Hle.
        -- subst z. by rewrite <- E.
      * rewrite E. split.
        { apply elem_of_app. right. by apply list_elem_of_singleton. }
        split; [done|].
        intros z [Hz|Hz%list_elem_of_singleton]%elem_of_app Hzpos.
        -- rewrite <- E. eapply Qcle_trans; [exact Hm | by apply Hle].
        -- subst z. apply Qcle_refl.
    + intros Hnone. split.
      { apply elem_of_app. right. by apply list_elem_of_singleton. }
      split; [done|].
      intros z [Hz|Hz%list_elem_of_singleton]%elem_of_app Hzpos.
      * by destruct (Hnone z).
      * subst z. apply Qcle_refl.
  - apply Qc_ltb_ge in Hx. destruct p as [y|]; simpl.
    + intros (Hin & Hpos & Hle). split; [apply elem_of_app; by left|].
      split; [done|].
      intros z [Hz|Hz%list_elem_of_singleton]%elem_of_app Hzpos.
      * by apply Hle.
      * subst z. by destruct (Qcle_not_lt _ _ Hx).
    + intros Hnone z [Hz|Hz%list_elem_of_singleton]%elem_of_app.
      * by apply Hnone.
      * subst z. by apply Qcle_not_lt.
Qed.

Lemma observe_summarises r l x :
  summarises r l -> summarises (observe r x) (l ++ [x]).
Proof.
  intros (Hmin & Hmax & Hpos). repeat split; simpl;
    first [ by apply least_snoc | by apply greatest_snoc
          | by apply least_positive_snoc ].
Qed.

Lemma fold_observe_summarises l : forall r seen,
  summarises r seen -> summarises (fold_left observe l r) (seen ++ l).
Proof.
  induction l as [|x l IH]; intros r seen H; simpl.
  - by rewrite app_nil_r.
  - rewrite (cons_middle x seen l), app_assoc.
    apply IH. by apply observe_summarises.
Qed.

(** With [min_positive=True], [min_max] returns the least sample, the
    greatest sample and the least strictly positive sample, if any. *)
Lemma min_max_summarises data : summarises (min_max data true) (values data).
Proof.
  unfold min_max, values.
  change (first data :: others data) with ([first data] ++ others data).
  apply fold_observe_summarises. repeat split; simpl.
  - by apply list_elem_of_singleton.
  - intros x ->%list_elem_of_singleton. apply Qcle_refl.
  - by apply list_elem_of_singleton.
  - intros x ->%list_elem_of_singleton. apply Qcle_refl.
  - replace [first data] with ([] ++ [first data]) by done.
    apply least_positive_snoc. simpl. intros x Hx. by apply elem_of_nil in Hx.
Qed.

Lemma min_max_no_positive data :
  (forall x, x ∈ values data -> ~ (0 < x)%Qc) ->
  min_positive (min_max data true) = None.
Proof.
  intros Hnone. destruct (min_max_summarises data) as (_ & _ & Hpos).
  destruct (min_positive (min_max data true)) as [y|]; [|done].
  destruct Hpos as (Hin & Hy & _). by destruct (Hnone y).
Qed.

(** ** The display range *)

(** C4.  For every colormap whose [vmin] and [vmax] are both [None]:
    without data [getColorMapRange] returns exactly (0, 1) under linear
    normalization and (1, 10) under logarithmic normalization; with data and
    linear normalization it returns the minimum and the maximum of the data,
    both read from the result of the one call to [min_max]. *)
Theorem getColorMapRange_autoscale :
  forall (name colors : pyval) (autoscale : option bool),
    let linear := MkColormap name colors (PyStr LINEAR) PyNone PyNone autoscale in
    let log := MkColormap name colors (PyStr LOGARITHM) PyNone PyNone autoscale in
    getColorMapRange linear None = Ok (PyNum (num 0), PyNum (num 1))
    /\ getColorMapRange log None = Ok (PyNum (num 1), PyNum (num 10))
    /\ forall data : samples,
         let stats := min_max data true in
         getColorMapRange linear (Some data)
           = Ok (PyNum (minimum stats), PyNum (maximum stats))
         /\ least (minimum stats) (values data)
         /\ greatest (maximum stats) (values data).
Proof.
  intros name colors autoscale linear log.
  split; [reflexivity|]. split; [reflexivity|].
  intros data stats. split; [reflexivity|].
  destruct (min_max_summarises data) as (Hmin & Hmax & _). by split.
Qed.

(** The logarithmic correction, for a colormap whose bounds are [None] or
    numbers: the bounds are first resolved against the statistics, then a
    negative [vmin] becomes [min_positive] and a negative [vmax] becomes the
    pair [(min_positive, maximum)]. *)
Lemma getColorMapRange_log (name colors : pyval) (autoscale : option bool)
    (vmin vmax : option Qc) (data : samples) :
  let self :=
    MkColormap name colors (PyStr LOGARITHM)
      (of_option PyNum vmin) (of_option PyNum vmax) autoscale in
  let stats := min_max data true in
  let lo := default (minimum stats) vmin in
  let hi := default (maximum stats) vmax in
  getColorMapRange self (Some data)
  = Ok (if Qc_ltb lo 0%Qc then of_option PyNum (min_positive stats) else PyNum lo,
        if Qc_ltb hi 0%Qc
        then PyTuple (of_option PyNum (min_positive stats)) (PyNum (maximum stats))
        else PyNum hi).
Proof. destruct vmin, vmax; reflexivity. Qed.

(** C1.  The code at the failing input: a logarithmic colormap whose [vmax]
    was set to -1, asked for its range over the data 1, 2, 3.  The returned
    [vmin] is 1; the returned [vmax] is the pair (1, 3), where the claim has
    the single value 1. *)
Theorem getColorMapRange_negative_vmax_pair :
  exists c : Colormap,
    result (__init__ (Some "gray") ColNone LOGARITHM None None) = Ok c
    /\ getColorMapRange (setVMax (PyNum (num (-1))) c).1
         (Some (Samples (num 1) [num 2; num 3]))
       = Ok (PyNum (num 1), PyTuple (PyNum (num 1)) (PyNum (num 3))).
Proof. eexists. split; [reflexivity|]. vm_compute. reflexivity. Qed.

(** C2, as stated, fails: over the data -5, -2, -1, and over the data -5, 0,
    neither of which has a strictly positive sample, a logarithmic colormap
    in autoscale returns a range whose [vmin] is [None]; nothing is raised. *)
Lemma getColorMapRange_no_positive_returns :
  let self := MkColormap (PyStr "gray") PyNone (PyStr LOGARITHM) PyNone PyNone None in
  let all_negative := Samples (num (-5)) [num (-2); num (-1)] in
  let none_positive := Samples (num (-5)) [num 0] in
  forallb (fun x => negb (Qc_ltb 0%Qc x)) (values all_negative) = true
  /\ forallb (fun x => negb (Qc_ltb 0%Qc x)) (values none_positive) = true
  /\ getColorMapRange self (Some all_negative)
     = Ok (PyNone, PyTuple PyNone (PyNum (num (-1))))
  /\ getColorMapRange self (Some none_positive) = Ok (PyNone, PyNum (num 0))
  /\ ~ (exists e, getColorMapRange self (Some all_negative) = Raise e)
  /\ ~ (exists e, getColorMapRange self (Some none_positive) = Raise e).
Proof.
  repeat split; try (vm_compute; reflexivity);
    intros [e He]; vm_compute in He; discriminate.
Qed.

(** C2, amended.  For every data array with no strictly positive sample
    and every logarithmic colormap whose bounds are [None] or numbers, when
    the resolved [vmin] is negative [getColorMapRange] returns normally, and
    the [vmin] it returns is [None], the undefined [min_positive]. *)
Theorem getColorMapRange_no_positive :
  forall (name colors : pyval) (autoscale : option bool)
         (vmin vmax : option Qc) (data : samples),
    let self :=
      MkColormap name colors (PyStr LOGARITHM)
        (of_option PyNum vmin) (of_option PyNum vmax) autoscale in
    (forall x, x ∈ values data -> ~ (0 < x)%Qc) ->
    (default (minimum (min_max data true)) vmin < 0)%Qc ->
    exists hi, getColorMapRange self (Some data) = Ok (PyNone, hi).
Proof.
  intros name colors autoscale vmin vmax data self Hnone Hneg.
  subst self. rewrite getColorMapRange_log.
  apply Qc_ltb_lt in Hneg. rewrite Hneg.
  rewrite (min_max_no_positive data Hnone). simpl. eauto.
Qed.

Lemma getColorMapRange_no_positive_witness :
  exists hi,
    getColorMapRange
      (MkColormap (PyStr "gray") PyNone (PyStr LOGARITHM)
         (of_option PyNum None) (of_option PyNum None) None)
      (Some (Samples (num (-5)) [num 0])) = Ok (PyNone, hi).
Proof.
  apply (getColorMapRange_no_positive (PyStr "gray") PyNone None None None
           (Samples (num (-5)) [num 0])).
  - intros x Hx Hpos. apply Qc_ltb_lt in Hpos.
    apply list_elem_of_In in Hx. simpl in Hx.
    destruct Hx as [<-|[<-|[]]]; vm_compute in Hpos; discriminate.
  - apply Qc_ltb_lt. vm_compute. reflexivity.
Defined.

(** ** Construction *)

#[local] Arguments py_float : simpl never.

(** The constructor, step by step: the assertion, the reset of the bounds,
    the table, the conversion of the bounds. *)
Lemma init_run name colors (normalization : str_object) vmin vmax :
  __init__ name colors normalization vmin vmax
  = if bool_decide (chars normalization ∈ NORMALIZATIONS) then
      let reset :=
        is_constant normalization LOGARITHM
        && (below_one vmin || below_one vmax) in
      Eff (if reset then [Warning (UnsupportedLogBounds vmin vmax)] else [])
        (table ← _setColors colors;
         lo ← float_or_None (if reset then None else vmin);
         hi ← float_or_None (if reset then None else vmax);
         Ok (MkColormap (of_option PyStr name) table
               (PyStr (chars normalization)) lo hi None))
    else Eff [] (Raise AssertionError).
Proof.
  unfold __init__.
  destruct (bool_decide (chars normalization ∈ NORMALIZATIONS)); [|reflexivity].
  destruct (is_constant normalization LOGARITHM),
    (below_one vmin || below_one vmax), colors;
    unfold mbind, eff_bind, lift, tell; simpl; try reflexivity;
    destruct (float_or_None vmin); simpl; try reflexivity;
    destruct (float_or_None vmax); reflexivity.
Qed.

Lemma below_one_lt (v : option Qc) :
  below_one v = true <-> exists x, v = Some x /\ (x < 1)%Qc.
Proof.
  destruct v as [x|]; simpl.
  - rewrite Qc_ltb_lt. split; [eauto|]. by intros (y & [= ->] & Hy).
  - split; [done|]. by intros (y & [=] & _).
Qed.

Lemma LOGARITHM_known : bool_decide (LOGARITHM ∈ NORMALIZATIONS) = true.
Proof. apply bool_decide_eq_true_2. unfold NORMALIZATIONS. set_solver. Qed.

(** The reset of the bounds, when the normalization is the object
    [LOGARITHM]: with a supplied bound strictly below 1.0 the constructor
    logs one warning and resets both bounds to [None]; the bounds make it
    raise nothing: it returns the object unless the colors argument has a
    type [_setColors] rejects. *)
Theorem init_log_bounds_reset :
  forall (name : option string) (colors : colors_arg) (vmin vmax : option Qc),
    (exists x, vmin = Some x /\ (x < 1)%Qc)
    \/ (exists x, vmax = Some x /\ (x < 1)%Qc) ->
    let run := __init__ name colors LOGARITHM vmin vmax in
    trace run = [Warning (UnsupportedLogBounds vmin vmax)]
    /\ result run
       = match _setColors colors with
         | Ok table =>
             Ok (MkColormap (of_option PyStr name) table (PyStr LOGARITHM)
                   PyNone PyNone None)
         | Raise e => Raise e
         end
    /\ (colors <> ColOther ->
        exists self, result run = Ok self
                     /\ getVMin self = PyNone /\ getVMax self = PyNone).
Proof.
  intros name colors vmin vmax Hlow run.
  assert (below_one vmin || below_one vmax = true) as Hb.
  { apply orb_true_iff. by rewrite !below_one_lt. }
  subst run. unfold __init__.
  change (chars LOGARITHM) with LOGARITHM. rewrite LOGARITHM_known.
  change (is_constant LOGARITHM LOGARITHM) with true. cbv iota.
  rewrite Hb. destruct colors; repeat split; try reflexivity;
    try (intros _; eexists; repeat split; reflexivity); by intros [].
Qed.

Lemma init_log_bounds_reset_witness :
  let run := __init__ (Some "gray") ColNone LOGARITHM (Some (Q2Qc (1 # 2))) None in
  trace run = [Warning (UnsupportedLogBounds (Some (Q2Qc (1 # 2))) None)]
  /\ result run
     = Ok (MkColormap (PyStr "gray") PyNone (PyStr LOGARITHM) PyNone PyNone None)
  /\ (ColNone <> ColOther ->
      exists self, result run = Ok self
                   /\ getVMin self = PyNone /\ getVMax self = PyNone).
Proof.
  apply (init_log_bounds_reset (Some "gray") ColNone (Some (Q2Qc (1 # 2))) None).
  left. exists (Q2Qc (1 # 2)). split; [reflexivity|].
  apply Qc_ltb_lt. vm_compute. reflexivity.
Defined.

(** C5.  The code at the failing input: the constructor given [vmin] 0.5
    and a string with the characters of [LOGARITHM] that is not the object
    [LOGARITHM].  The assertion, which compares characters, lets it pass,
    and [getColorMapRange] gives it the logarithmic defaults; but line 94
    tests identity, so nothing is logged and 0.5 is stored, where the claim
    has both bounds reset with a warning.  Given the object [LOGARITHM], the
    same call logs the warning and resets the bounds. *)
Theorem init_log_identity :
  let equal := __init__ (Some "gray") ColNone (built LOGARITHM)
                 (Some (Q2Qc (1 # 2))) None in
  let same := __init__ (Some "gray") ColNone LOGARITHM
                (Some (Q2Qc (1 # 2))) None in
  let kept := MkColormap (PyStr "gray") PyNone (PyStr LOGARITHM)
                (PyNum (Q2Qc (1 # 2))) PyNone None in
  let reset := MkColormap (PyStr "gray") PyNone (PyStr LOGARITHM)
                 PyNone PyNone None in
  equal = Eff [] (Ok kept)
  /\ getColorMapRange kept None = Ok (PyNum (Q2Qc (1 # 2)), PyNum (num 10))
  /\ same = Eff [Warning (UnsupportedLogBounds (Some (Q2Qc (1 # 2))) None)]
             (Ok reset).
Proof. repeat split; vm_compute; reflexivity. Qed.

(** ** Bounds *)

(** C6.  [setVMinVMax(vmin, vmax)] followed by [getVMin()] and [getVMax()]
    returns exactly the pair that was set, whatever the two values are (in
    particular for two numbers with [vmin <= vmax]); the call returns
    normally and emits [sigChanged] once. *)
Theorem setVMinVMax_roundtrip :
  forall (self : Colormap) (vmin vmax : pyval),
    let call := setVMinVMax vmin vmax self in
    getVMin call.1 = vmin /\ getVMax call.1 = vmax
    /\ call.2 = Eff [SigChanged] (Ok tt).
Proof. intros. repeat split. Qed.

(** ** Names *)

(** C10.  [setName(name)] replaces the name and also resets the color table
    to [None], whatever table the colormap had; normalization and bounds
    are unchanged. *)
Theorem setName_resets_colors :
  forall (self : Colormap) (name : string),
    let self' := (setName name self).1 in
    getColorMapLUT self' true = PyNone
    /\ getName self' = PyStr name
    /\ getNormalization self' = getNormalization self
    /\ getVMin self' = getVMin self
    /\ getVMax self' = getVMax self.
Proof. intros. repeat split. Qed.

(** ** Normalization *)

Lemma py_eq_str (v : pyval) (s : string) :
  py_eq v (PyStr s) = Ok true -> v = PyStr s.
Proof.
  destruct v as [|[]| | | |]; simpl; try discriminate.
  intros [= H]. apply String.eqb_eq in H. by subst.
Qed.

Lemma py_in_NORMALIZATIONS (v : pyval) :
  py_in v (PyStr <$> NORMALIZATIONS) = Ok true ->
  exists s, v = PyStr s /\ s ∈ NORMALIZATIONS.
Proof.
  unfold NORMALIZATIONS. simpl.
  destruct (py_eq v (PyStr LINEAR)) as [[]|] eqn:E1; simpl; try discriminate.
  { intros _. apply py_eq_str in E1. exists LINEAR. split; [done|set_solver]. }
  destruct (py_eq v (PyStr LOGARITHM)) as [[]|] eqn:E2; simpl; try discriminate.
  intros _. apply py_eq_str in E2. exists LOGARITHM. split; [done|set_solver].
Qed.

(** A comparison raises only on an array. *)
Lemma py_eq_raise (a : pyval) : forall b e,
  py_eq a b = Raise e -> e = ValueError AmbiguousTruth.
Proof.
  induction a as [|[]| | | |u IHu v IHv]; intros [|[]| | | |u' v'] e;
    simpl; try congruence.
  destruct (py_eq u u') as [[]|] eqn:E; simpl.
  - apply IHv.
  - intros [=].
  - intros [= <-]. by eapply IHu.
Qed.

Lemma py_in_raise (v : pyval) (t : list pyval) (e : exn) :
  py_in v t = Raise e -> e = ValueError AmbiguousTruth.
Proof.
  induction t as [|x t IH]; simpl; [discriminate|].
  destruct (py_eq v x) as [[]|] eqn:E; simpl.
  - discriminate.
  - exact IH.
  - intros [= <-]. by eapply py_eq_raise.
Qed.

(** The constructor establishes the invariant: its assertion stops any
    other normalization. *)
Lemma init_valid_normalization name colors normalization vmin vmax self :
  result (__init__ name colors normalization vmin vmax) = Ok self ->
  valid_normalization self.
Proof.
  rewrite init_run.
  destruct (bool_decide (chars normalization ∈ NORMALIZATIONS)) eqn:Hin;
    [|discriminate].
  apply bool_decide_eq_true in Hin. cbv zeta.
  unfold mbind, outcome_bind. cbn [result].
  destruct (_setColors colors); [|discriminate].
  destruct (float_or_None _); [|discriminate].
  destruct (float_or_None _); [|discriminate].
  intros [= <-]. by exists (chars normalization).
Qed.

(** ** The dictionary form *)

#[local] Arguments py_in : simpl never.

Lemma _setFromDict_checked_result dic :
  result (_setFromDict_checked dic) = verdict dic.
Proof.
  unfold _setFromDict_checked, verdict.
  set (some_bound :=
         negb (is_None (get_or_None dic "vmin"))
         || negb (is_None (get_or_None dic "vmax"))).
  set (no_bound :=
         is_None (get_or_None dic "vmin") && is_None (get_or_None dic "vmax")).
  set (nothing :=
         is_None (get_or_None dic "name") && is_None (get_or_None dic "colors")).
  destruct (dic !! "normalization") as [n|];
    simpl; destruct nothing; simpl; try reflexivity.
  - destruct (py_in n _) as [[]|]; simpl; try reflexivity.
    + destruct (dic !! "autoscale") as [[|[]| | | |]|]; simpl; try reflexivity.
      * by destruct some_bound.
      * by destruct no_bound.
    + by destruct (format_one n).
  - destruct (dic !! "autoscale") as [[|[]| | | |]|]; simpl; try reflexivity.
    + by destruct some_bound.
    + by destruct no_bound.
Qed.

Lemma _setFromDict_result dic self :
  result (_setFromDict dic self).2
  = match verdict dic with Ok _ => Ok tt | Raise e => Raise e end.
Proof.
  unfold _setFromDict. rewrite _setFromDict_checked_result.
  by destruct (verdict dic).
Qed.

Lemma _setFromDict_object dic self :
  (_setFromDict dic self).1 = match verdict dic with Ok c => c | Raise _ => self end.
Proof.
  unfold _setFromDict. rewrite _setFromDict_checked_result.
  by destruct (verdict dic).
Qed.

(** [_setFromDict] establishes the invariant: it checks the normalization
    before it writes it. *)
Lemma _setFromDict_valid_normalization dic self :
  result (_setFromDict dic self).2 = Ok tt ->
  valid_normalization (_setFromDict dic self).1.
Proof.
  rewrite _setFromDict_result, _setFromDict_object. unfold verdict.
  destruct (is_None _ && is_None _); [discriminate|].
  destruct (py_in _ _) as [[]|] eqn:Hin; try discriminate.
  - apply py_in_NORMALIZATIONS in Hin.
    destruct (dic !! "autoscale") as [[|[]| | | |]|]; simpl; try discriminate;
      try (match goal with |- context [if ?b then _ else _] => destruct b end;
           try discriminate); intros _; exact Hin.
  - destruct (format_one _); discriminate.
Qed.

(** The other mutators do not touch the normalization. *)
Lemma other_mutators_keep_normalization (self : Colormap) (name : string)
    (vmin vmax : pyval) (colors : colors_arg) (keepName : bool) :
  _normalization (setName name self).1 = _normalization self
  /\ _normalization (setVMin vmin self).1 = _normalization self
  /\ _normalization (setVMax vmax self).1 = _normalization self
  /\ _normalization (setVMinVMax vmin vmax self).1 = _normalization self
  /\ _normalization (setColorMapLUT colors keepName self).1
     = _normalization self.
Proof.
  repeat split. unfold setColorMapLUT.
  destruct colors as [|[[|[|n] sh] fl]|[[|[|n] sh] fl]|], keepName; reflexivity.
Qed.

(** C3.  The code at the failing input: on a freshly constructed colormap,
    whose normalization is a managed one, [setNormalization("sqrt")]
    returns normally and leaves a normalization that is neither of the
    two. *)
Theorem setNormalization_unchecked :
  exists c : Colormap,
    result default_args = Ok c
    /\ valid_normalization c
    /\ let call := setNormalization "sqrt" c in
       result call.2 = Ok tt
       /\ getNormalization call.1 = PyStr "sqrt"
       /\ ~ valid_normalization call.1.
Proof.
  eexists. split; [reflexivity|]. split.
  { exists LINEAR. split; [reflexivity|]. unfold NORMALIZATIONS. set_solver. }
  repeat split. intros (s & [= <-] & Hs).
  apply list_elem_of_In in Hs. simpl in Hs.
  destruct Hs as [Hs|[Hs|[]]]; discriminate.
Qed.

Lemma is_None_true (v : pyval) : is_None v = true <-> v = PyNone.
Proof. destruct v; simpl; split; congruence. Qed.

Lemma is_None_false (v : pyval) : is_None v = false <-> v <> PyNone.
Proof. destruct v; simpl; split; congruence. Qed.

Lemma verdict_head_accepted dic :
  head_accepted dic ->
  is_None (get_or_None dic "name") && is_None (get_or_None dic "colors") = false
  /\ py_in (default (PyStr LINEAR) (dic !! "normalization"))
       (PyStr <$> NORMALIZATIONS) = Ok true.
Proof.
  intros [Hhead Hnorm]. split.
  - apply andb_false_iff. rewrite !is_None_false. tauto.
  - destruct Hnorm as [->|(s & -> & Hs)]; [reflexivity|].
    apply list_elem_of_In in Hs. simpl in Hs.
    destruct Hs as [<-|[<-|[]]]; reflexivity.
Qed.

Lemma verdict_raises_ValueError dic e :
  formattable (dic !! "normalization") ->
  verdict dic = Raise e -> exists why, e = ValueError why.
Proof.
  intros Hfmt. unfold verdict.
  destruct (is_None _ && is_None _); [intros [= <-]; eauto|].
  destruct (py_in _ _) as [[]|] eqn:Hin.
  - destruct (dic !! "autoscale") as [[|[]| | | |]|]; simpl;
      try (intros [= <-]; eauto; fail);
      try (match goal with |- context [if ?b then _ else _] => destruct b end;
           intros [= <-]; eauto; fail).
  - destruct (dic !! "normalization") as [[]|]; simpl;
      try (intros [= <-]; eauto; fail).
    by destruct (Hfmt u v).
  - intros [= <-]. apply py_in_raise in Hin. eauto.
Qed.

Lemma autoscale_conflict_check dic why :
  autoscale_conflict dic why ->
  forall written : Colormap,
    match dic !! "autoscale" with
    | Some (PyBool true) =>
        if negb (is_None (get_or_None dic "vmin"))
           || negb (is_None (get_or_None dic "vmax"))
        then Raise (ValueError AutoscaleWithBounds) else Ok written
    | Some (PyBool false) =>
        if is_None (get_or_None dic "vmin") && is_None (get_or_None dic "vmax")
        then Raise (ValueError NoAutoscaleNoBounds) else Ok written
    | Some _ => Raise (ValueError AutoscaleNotBool)
    | None => Ok written
    end = Raise (ValueError why).
Proof.
  intros [Ha Hb|Ha Hmin Hmax|v Ha Hv] written; rewrite Ha.
  - assert (negb (is_None (get_or_None dic "vmin"))
            || negb (is_None (get_or_None dic "vmax")) = true) as ->; [|done].
    apply orb_true_iff. rewrite !negb_true_iff, !is_None_false. tauto.
  - by rewrite Hmin, Hmax.
  - destruct v as [|b| | | |]; try reflexivity. by destruct (Hv b).
Qed.

Lemma verdict_conflict_raises dic why :
  autoscale_conflict dic why -> exists e, verdict dic = Raise e.
Proof.
  intros Hc. unfold verdict.
  destruct (is_None _ && is_None _); [eauto|].
  destruct (py_in _ _) as [[]|]; [|destruct (format_one _); eauto|eauto].
  rewrite (autoscale_conflict_check dic why Hc). eauto.
Qed.

Lemma verdict_conflict_exact dic why :
  head_accepted dic -> autoscale_conflict dic why ->
  verdict dic = Raise (ValueError why).
Proof.
  intros [Hhead Hin]%verdict_head_accepted Hc. unfold verdict.
  rewrite Hhead, Hin. by apply autoscale_conflict_check.
Qed.

(** C7.  [_setFromDict] validates its dictionary.  A dictionary whose name
    and colors both resolve to [None] is rejected with [ValueError].  When
    the autoscale flag is present and is [True] with a bound that is not
    [None], or [False] with both bounds [None], or anything but [True] and
    [False], the dictionary is rejected with [ValueError] (given that the
    normalization entry, if any, is not a pair, which the error message
    could not hold); the [ValueError] is the one of the autoscale check when
    the name, colors and normalization entries pass theirs.  A rejected
    dictionary leaves the colormap as it was. *)
Theorem setFromDict_rejects :
  forall (dic : gmap string pyval) (self : Colormap),
    let call := _setFromDict dic self in
    (get_or_None dic "name" = PyNone -> get_or_None dic "colors" = PyNone ->
     result call.2 = Raise (ValueError NoNameNoColors))
    /\ (forall why,
          autoscale_conflict dic why ->
          formattable (dic !! "normalization") ->
          (exists why', result call.2 = Raise (ValueError why'))
          /\ (head_accepted dic -> result call.2 = Raise (ValueError why)))
    /\ (forall e, result call.2 = Raise e -> call.1 = self).
Proof.
  intros dic self call. subst call.
  rewrite _setFromDict_result, _setFromDict_object. repeat split.
  - intros Hname Hcolors. unfold verdict. by rewrite Hname, Hcolors.
  - destruct (verdict_conflict_raises dic why) as [e He]; [done|].
    destruct (verdict_raises_ValueError dic e) as [why' ->]; [done..|].
    exists why'. by rewrite He.
  - intros Hhead. by rewrite (verdict_conflict_exact dic why).
  - intros e. by destruct (verdict dic).
Qed.

Lemma head_accepted_gray (dic : gmap string pyval) :
  dic !! "normalization" = None -> get_or_None dic "name" = PyStr "gray" ->
  head_accepted dic.
Proof. intros Hn Hname. split; [|by left]. left. by rewrite Hname. Qed.

Lemma formattable_absent (dic : gmap string pyval) :
  dic !! "normalization" = None -> formattable (dic !! "normalization").
Proof. intros Hn u v. by rewrite Hn. Qed.

Lemma setFromDict_rejects_witness :
  result (_setFromDict dict_nothing gray_linear).2
  = Raise (ValueError NoNameNoColors)
  /\ result (_setFromDict dict_autoscale_vmin gray_linear).2
     = Raise (ValueError AutoscaleWithBounds)
  /\ result (_setFromDict dict_fixed_no_bounds gray_linear).2
     = Raise (ValueError NoAutoscaleNoBounds)
  /\ result (_setFromDict dict_autoscale_number gray_linear).2
     = Raise (ValueError AutoscaleNotBool).
Proof.
  split; [|split; [|split]].
  - apply (proj1 (setFromDict_rejects dict_nothing gray_linear));
      vm_compute; reflexivity.
  - refine (proj2 (proj1 (proj2 (setFromDict_rejects dict_autoscale_vmin
                                   gray_linear)) AutoscaleWithBounds _ _) _).
    + apply conflict_true; [vm_compute; reflexivity|].
      left. intros H. vm_compute in H. discriminate.
    + apply formattable_absent. vm_compute. reflexivity.
    + apply head_accepted_gray; vm_compute; reflexivity.
  - refine (proj2 (proj1 (proj2 (setFromDict_rejects dict_fixed_no_bounds
                                   gray_linear)) NoAutoscaleNoBounds _ _) _).
    + apply conflict_false; vm_compute; reflexivity.
    + apply formattable_absent. vm_compute. reflexivity.
    + apply head_accepted_gray; vm_compute; reflexivity.
  - refine (proj2 (proj1 (proj2 (setFromDict_rejects dict_autoscale_number
                                   gray_linear)) AutoscaleNotBool _ _) _).
    + apply (conflict_other _ (PyNum (num 1))); [vm_compute; reflexivity|].
      intros b H. discriminate.
    + apply formattable_absent. vm_compute. reflexivity.
    + apply head_accepted_gray; vm_compute; reflexivity.
Defined.

(** ** Autoscale and the dictionary round trip *)

Lemma _toDict_lookup (self : Colormap) :
  _toDict self !! "name" = Some (_name self)
  /\ _toDict self !! "colors" = Some (_colors self)
  /\ _toDict self !! "vmin" = Some (_vmin self)
  /\ _toDict self !! "vmax" = Some (_vmax self)
  /\ _toDict self !! "autoscale" = Some (PyBool (isAutoscale self))
  /\ _toDict self !! "normalization" = Some (_normalization self).
Proof.
  unfold _toDict. repeat split;
    by rewrite ?lookup_insert_ne, lookup_insert_eq by done.
Qed.

Lemma isAutoscale_true (self : Colormap) :
  isAutoscale self = true <-> _vmin self = PyNone \/ _vmax self = PyNone.
Proof. unfold isAutoscale. by rewrite orb_true_iff, !is_None_true. Qed.

Lemma init_blank :
  __init__ (Some "") ColNone LINEAR None None
  = Eff [] (Ok (MkColormap (PyStr "") PyNone (PyStr LINEAR) PyNone PyNone None)).
Proof. reflexivity. Qed.

Lemma _fromDict_result (dic : gmap string pyval) :
  result (_fromDict dic) = verdict dic.
Proof.
  unfold _fromDict. rewrite init_blank.
  set (blank := MkColormap _ _ _ _ _ _).
  unfold mbind at 1, eff_bind.
  change (result (Eff [] (Ok blank))) with (Ok blank). cbv iota beta zeta.
  pose proof (_setFromDict_result dic blank) as Hr.
  pose proof (_setFromDict_object dic blank) as Ho.
  destruct (_setFromDict dic blank) as [self' call]. simpl in *.
  unfold mbind, eff_bind. rewrite Hr, Ho. by destruct (verdict dic).
Qed.

(** C9.  [isAutoscale()] is true if and only if at least one of [vmin] and
    [vmax] is [None].  So the dictionary [_toDict] gives for a colormap with
    exactly one bound [None] has autoscale [True] next to a bound that is
    not [None]; [_fromDict] rejects that dictionary with [ValueError], which
    is the one of the autoscale check when the name or the colors are not
    [None] and the normalization is a managed one. *)
Theorem isAutoscale_one_bound :
  (forall self : Colormap,
     isAutoscale self = true <-> _vmin self = PyNone \/ _vmax self = PyNone)
  /\ forall (name colors : pyval) (norm : string) (vmin vmax : pyval)
            (autoscale : option bool),
       let self := MkColormap name colors (PyStr norm) vmin vmax autoscale in
       (vmin = PyNone /\ vmax <> PyNone) \/ (vmin <> PyNone /\ vmax = PyNone) ->
       _toDict self !! "autoscale" = Some (PyBool true)
       /\ _toDict self !! "vmin" = Some vmin
       /\ _toDict self !! "vmax" = Some vmax
       /\ (exists why, result (_fromDict (_toDict self)) = Raise (ValueError why))
       /\ ((name <> PyNone \/ colors <> PyNone) -> norm ∈ NORMALIZATIONS ->
           result (_fromDict (_toDict self))
           = Raise (ValueError AutoscaleWithBounds)).
Proof.
  split; [exact isAutoscale_true|].
  intros name colors norm vmin vmax autoscale self Hone.
  destruct (_toDict_lookup self) as (Hn & Hc & Hmin & Hmax & Ha & Hnorm).
  simpl in Hn, Hc, Hmin, Hmax, Hnorm.
  assert (isAutoscale self = true) as Hauto.
  { apply isAutoscale_true. simpl. tauto. }
  rewrite Hauto in Ha.
  assert (autoscale_conflict (_toDict self) AutoscaleWithBounds) as Hconflict.
  { apply conflict_true; [done|]. unfold get_or_None. rewrite Hmin, Hmax.
    simpl. tauto. }
  assert (formattable (_toDict self !! "normalization")) as Hfmt.
  { intros u v. by rewrite Hnorm. }
  repeat split; try done.
  - rewrite _fromDict_result.
    destruct (verdict_conflict_raises _ _ Hconflict) as [e He].
    destruct (verdict_raises_ValueError _ e Hfmt He) as [why ->]. eauto.
  - intros Hhead Hknown. rewrite _fromDict_result.
    apply verdict_conflict_exact; [|done]. split.
    + unfold get_or_None. by rewrite Hn, Hc.
    + right. exists norm. by rewrite Hnorm.
Qed.

Lemma isAutoscale_one_bound_witness :
  let self :=
    MkColormap (PyStr "gray") PyNone (PyStr LINEAR) (PyNum (num 3)) PyNone None in
  isAutoscale self = true
  /\ _toDict self !! "autoscale" = Some (PyBool true)
  /\ _toDict self !! "vmin" = Some (PyNum (num 3))
  /\ result (_fromDict (_toDict self)) = Raise (ValueError AutoscaleWithBounds).
Proof.
  intros self.
  assert ((PyNum (num 3) = PyNone /\ PyNone <> PyNone)
          \/ (PyNum (num 3) <> PyNone /\ PyNone = PyNone)) as Hone.
  { right. split; [discriminate|reflexivity]. }
  destruct (proj2 isAutoscale_one_bound (PyStr "gray") PyNone LINEAR
              (PyNum (num 3)) PyNone None Hone) as (Ha & Hmin & _ & _ & Hexact).
  split; [apply (proj1 isAutoscale_one_bound self); by right|].
  split; [exact Ha|]. split; [exact Hmin|].
  apply Hexact; [left; discriminate|].
  apply list_elem_of_In. simpl. by left.
Defined.

(** ** Equality *)

Lemma Qc_eqb_sym (x y : Qc) : Qc_eqb x y = Qc_eqb y x.
Proof.
  destruct (Qc_eqb y x) eqn:E.
  - apply Qc_eqb_eq in E. subst. apply Qc_eqb_refl.
  - apply Qc_eqb_neq in E. apply Qc_eqb_neq. congruence.
Qed.

Lemma py_eq_sym (a : pyval) : forall b, py_eq a b = py_eq b a.
Proof.
  induction a as [|[]| | | |u IHu v IHv]; intros [|[]| | | |u' v'];
    simpl; try reflexivity;
    try (by rewrite Qc_eqb_sym); try (by rewrite String.eqb_sym).
  rewrite IHu, IHv. reflexivity.
Qed.

Lemma all_equal_sym (xs : list pyval) : forall ys,
  all_equal xs ys = all_equal ys xs.
Proof.
  induction xs as [|x xs IH]; intros [|y ys]; simpl; try reflexivity.
  rewrite (py_eq_sym x y), IH. reflexivity.
Qed.

Lemma array_equal_sym (a b : pyval) : array_equal a b = array_equal b a.
Proof.
  unfold array_equal. rewrite all_equal_sym. f_equal.
  apply bool_decide_ext. split; congruence.
Qed.

(** On plain values [==] is equality. *)
Lemma py_eq_plain (a b : pyval) :
  plain a = true -> plain b = true ->
  (a = b /\ py_eq a b = Ok true) \/ (a <> b /\ py_eq a b = Ok false).
Proof.
  destruct a as [| |x|s| |], b as [| |y|t| |]; simpl; try discriminate;
    intros _ _; try (right; split; [discriminate|reflexivity]).
  - by left.
  - destruct (Qc_eqb x y) eqn:E.
    + apply Qc_eqb_eq in E. subst. by left.
    + apply Qc_eqb_neq in E. right. split; congruence.
  - destruct (String.eqb s t) eqn:E.
    + apply String.eqb_eq in E. subst. by left.
    + apply String.eqb_neq in E. right. split; congruence.
Qed.

Lemma all_equal_numbers (xs : list Qc) : forall ys,
  all_equal (PyNum <$> xs) (PyNum <$> ys) = true <-> xs = ys.
Proof.
  induction xs as [|x xs IH]; intros [|y ys]; simpl; try (split; congruence).
  destruct (Qc_eqb x y) eqn:E.
  - apply Qc_eqb_eq in E. subst. rewrite IH. split; congruence.
  - apply Qc_eqb_neq in E. split; congruence.
Qed.

Lemma all_equal_None_numbers (xs : list Qc) :
  all_equal [PyNone] (PyNum <$> xs) = false
  /\ all_equal (PyNum <$> xs) [PyNone] = false.
Proof. by destruct xs. Qed.

(** On color tables [numpy.array_equal] is equality. *)
Lemma array_equal_typed (a b : pyval) :
  colors_typed a = true -> colors_typed b = true ->
  array_equal a b = true <-> a = b.
Proof.
  destruct a as [| | | |[sa fa]|], b as [| | | |[sb fb]|]; simpl;
    try discriminate; intros _ _; unfold array_equal, asarray;
    cbn [fst snd shape flat].
  - split; reflexivity.
  - rewrite (proj1 (all_equal_None_numbers fb)), andb_false_r.
    split; discriminate.
  - rewrite (proj2 (all_equal_None_numbers fa)), andb_false_r.
    split; discriminate.
  - rewrite andb_true_iff, bool_decide_eq_true, all_equal_numbers.
    split; [intros [-> ->]; reflexivity | intros [= -> ->]; done].
Qed.

Lemma well_typed_fields (self : Colormap) :
  well_typed self = true ->
  plain (_name self) = true /\ plain (_normalization self) = true
  /\ plain (_vmin self) = true /\ plain (_vmax self) = true
  /\ colors_typed (_colors self) = true.
Proof.
  unfold well_typed. rewrite !andb_true_iff.
  intros ((((Hn & Hnorm) & Hmin) & Hmax) & Hc).
  destruct (_name self), (_normalization self), (_vmin self), (_vmax self);
    simpl in *; try discriminate; done.
Qed.

Lemma float_or_None_typed (v : option Qc) (w : pyval) :
  float_or_None v = Ok w -> bound_typed w = true.
Proof.
  destruct v as [x|]; simpl; [|by intros [= <-]].
  unfold mbind, outcome_bind. destruct (py_float x); [|discriminate].
  by intros [= <-].
Qed.

(** What the constructor builds has the types of the data model. *)
Lemma init_well_typed name colors normalization vmin vmax self :
  result (__init__ name colors normalization vmin vmax) = Ok self ->
  well_typed self = true.
Proof.
  rewrite init_run.
  destruct (bool_decide (chars normalization ∈ NORMALIZATIONS)); [|discriminate].
  cbv zeta. unfold mbind, outcome_bind. cbn [result].
  destruct (_setColors colors) as [table|] eqn:Ht; [|discriminate].
  set (reset := is_constant normalization LOGARITHM
                && (below_one vmin || below_one vmax)).
  destruct (float_or_None (if reset then None else vmin)) as [lo|] eqn:Hlo;
    [|discriminate].
  destruct (float_or_None (if reset then None else vmax)) as [hi|] eqn:Hhi;
    [|discriminate].
  intros [= Hself]. subst self. apply float_or_None_typed in Hlo, Hhi.
  unfold well_typed. simpl. rewrite Hlo, Hhi.
  destruct colors, name; simpl in Ht; try discriminate;
    injection Ht as <-; reflexivity.
Qed.

(** C8.  [__eq__] compares the five fields name, normalization, [vmin],
    [vmax] and color table by value, and is symmetric.  For two colormaps
    whose attributes have the types of the data model, it is true when all
    five fields are the same, whatever else distinguishes the two objects,
    and false as soon as one of the five differs. *)
Theorem eq_structural :
  forall a b : Colormap,
    __eq__ a b = __eq__ b a
    /\ (well_typed a = true -> well_typed b = true ->
        (same_fields a b -> __eq__ a b = Ok true)
        /\ (~ same_fields a b -> __eq__ a b = Ok false)).
Proof.
  intros a b. split.
  - unfold __eq__, getName, getNormalization, getVMin, getVMax, getColorMapLUT.
    rewrite (py_eq_sym (_name a)), (py_eq_sym (_normalization a)),
      (py_eq_sym (_vmin a)), (py_eq_sym (_vmax a)),
      (array_equal_sym (_colors a)).
    reflexivity.
  - intros (Han & Hao & Hai & Hax & Hac)%well_typed_fields
           (Hbn & Hbo & Hbi & Hbx & Hbc)%well_typed_fields.
    unfold __eq__, same_fields, getName, getNormalization, getVMin, getVMax,
      getColorMapLUT.
    destruct (py_eq_plain _ _ Han Hbn) as [[En ->]|[En ->]]; simpl;
      [|split; [tauto|done]].
    destruct (py_eq_plain _ _ Hao Hbo) as [[Eo ->]|[Eo ->]]; simpl;
      [|split; [tauto|done]].
    destruct (py_eq_plain _ _ Hai Hbi) as [[Ei ->]|[Ei ->]]; simpl;
      [|split; [tauto|done]].
    destruct (py_eq_plain _ _ Hax Hbx) as [[Ex ->]|[Ex ->]]; simpl;
      [|split; [tauto|done]].
    pose proof (array_equal_typed _ _ Hac Hbc) as Hc.
    destruct (array_equal (_colors a) (_colors b)).
    + split; [done|]. intros Hne. destruct Hne. repeat split; try done.
      by apply Hc.
    + split; [|done]. intros (_ & _ & _ & _ & E). apply Hc in E. discriminate.
Qed.

Lemma eq_structural_witness :
  let a := MkColormap (PyStr "gray") PyNone (PyStr LINEAR) PyNone
             (PyNum (num 5)) None in
  let b := MkColormap (PyStr "gray") PyNone (PyStr LINEAR) PyNone
             (PyNum (num 5)) (Some false) in
  let c := MkColormap (PyStr "gray") PyNone (PyStr LINEAR) PyNone
             (PyNum (num 6)) None in
  __eq__ a b = Ok true /\ __eq__ a c = Ok false.
Proof.
  intros a b c. split.
  - apply (proj2 (eq_structural a b)); [reflexivity..|].
    repeat split.
  - apply (proj2 (eq_structural a c)); [reflexivity..|].
    intros (_ & _ & _ & E & _). vm_compute in E. discriminate.
Defined.

(** * Further properties *)

(** ** Acceptance of a dictionary *)

Lemma verdict_accepted dic :
  head_accepted dic -> autoscale_consistent dic -> verdict dic = Ok (written dic).
Proof.
  intros [Hhead Hin]%verdict_head_accepted Hauto. unfold verdict.
  rewrite Hhead, Hin. unfold autoscale_consistent in Hauto. unfold written.
  destruct (dic !! "autoscale") as [[|[]| | | |]|]; try done.
  - destruct Hauto as [-> ->]. reflexivity.
  - assert (is_None (get_or_None dic "vmin") && is_None (get_or_None dic "vmax")
            = false) as Hb.
    { apply andb_false_iff. rewrite !is_None_false. tauto. }
    rewrite Hb. reflexivity.
Qed.

Lemma verdict_Ok_inv dic c :
  verdict dic = Ok c ->
  head_accepted dic /\ autoscale_consistent dic /\ c = written dic.
Proof.
  unfold verdict.
  destruct (is_None (get_or_None dic "name") && is_None (get_or_None dic "colors"))
    eqn:Hhead; [discriminate|].
  destruct (py_in _ _) as [[]|] eqn:Hin; [|by destruct (format_one _)|discriminate].
  intros Hok. assert (head_accepted dic) as Hacc.
  { split.
    - apply andb_false_iff in Hhead. rewrite !is_None_false in Hhead. tauto.
    - apply py_in_NORMALIZATIONS in Hin. destruct Hin as (s & Hs & Hknown).
      destruct (dic !! "normalization") as [v|]; [|by left].
      simpl in Hs. subst v. right. eauto. }
  split; [done|]. unfold autoscale_consistent, written.
  destruct (dic !! "autoscale") as [[|[]| | | |]|]; try discriminate.
  - destruct (is_None (get_or_None dic "vmin")) eqn:Hmin,
      (is_None (get_or_None dic "vmax")) eqn:Hmax; try discriminate.
    apply is_None_true in Hmin, Hmax. by injection Hok as <-.
  - destruct (is_None (get_or_None dic "vmin")) eqn:Hmin,
      (is_None (get_or_None dic "vmax")) eqn:Hmax; try discriminate;
      rewrite ?is_None_false in *; injection Hok as <-; split; tauto.
  - by injection Hok as <-.
Qed.

Lemma _setFromDict_trace dic self :
  trace (_setFromDict dic self).2
  = match dic !! "normalization" with
    | Some _ => []
    | None => [Warning NormalizationNotGiven]
    end
    ++ match verdict dic with Ok _ => [SigChanged] | Raise _ => [] end.
Proof.
  unfold _setFromDict.
  pose proof (_setFromDict_checked_result dic) as Hr.
  assert (trace (_setFromDict_checked dic)
          = match dic !! "normalization" with
            | Some _ => []
            | None => [Warning NormalizationNotGiven]
            end
            ++ match result (_setFromDict_checked dic) with
               | Ok _ => [SigChanged]
               | Raise _ => []
               end) as Ht.
  { clear Hr. unfold _setFromDict_checked.
    destruct (dic !! "normalization") as [n|]; simpl;
      destruct (is_None (get_or_None dic "name")
                && is_None (get_or_None dic "colors")); simpl; try reflexivity.
    - destruct (py_in n _) as [[]|]; simpl; try reflexivity.
      + destruct (dic !! "autoscale") as [[|[]| | | |]|]; simpl; try reflexivity;
          match goal with |- context [if ?b then _ else _] => destruct b end;
          reflexivity.
      + destruct (format_one n); reflexivity.
    - destruct (dic !! "autoscale") as [[|[]| | | |]|]; simpl; try reflexivity;
        match goal with |- context [if ?b then _ else _] => destruct b end;
        reflexivity. }
  rewrite Hr in Ht. rewrite Hr.
  destruct (verdict dic); simpl; exact Ht.
Qed.

(** X1.  [_setFromDict] accepts a dictionary exactly when its name or its
    colors resolve to something other than [None], its normalization is
    absent or one of the two managed strings, and its autoscale entry is
    absent or agrees with the bounds ([True] with both bounds [None], [False]
    with a bound that is not [None]).  [sigChanged] is emitted exactly when
    the dictionary is accepted. *)
Theorem setFromDict_accepts_iff :
  forall (dic : gmap string pyval) (self : Colormap),
    let call := _setFromDict dic self in
    (result call.2 = Ok tt <-> head_accepted dic /\ autoscale_consistent dic)
    /\ (SigChanged ∈ trace call.2 <-> result call.2 = Ok tt).
Proof.
  intros dic self call. subst call.
  rewrite _setFromDict_result, _setFromDict_trace. split.
  - split.
    + destruct (verdict dic) as [c|] eqn:Hv; [|discriminate].
      intros _. apply verdict_Ok_inv in Hv. tauto.
    + intros [Hhead Hauto]. by rewrite (verdict_accepted dic).
  - destruct (verdict dic), (dic !! "normalization"); simpl; split;
      try done; try discriminate.
    + intros _. apply list_elem_of_In. simpl. tauto.
    + intros _. apply list_elem_of_In. simpl. tauto.
    + intros H. apply list_elem_of_In in H. simpl in H. tauto.
    + intros H. apply list_elem_of_In in H. simpl in H.
      destruct H as [H|[]]. discriminate.
Qed.

(** X2.  An accepted dictionary replaces every attribute: the colormap
    after [_setFromDict] is read from the dictionary alone, a key the
    dictionary lacks resets its attribute to [None] (the normalization to
    ['linear'], with a warning), and nothing of the previous state is kept.
    The warning, if any, comes before the one [sigChanged]. *)
Theorem setFromDict_overwrites :
  forall (dic : gmap string pyval) (self : Colormap),
    head_accepted dic -> autoscale_consistent dic ->
    let call := _setFromDict dic self in
    call.1 = written dic
    /\ trace call.2
       = match dic !! "normalization" with
         | Some _ => [SigChanged]
         | None => [Warning NormalizationNotGiven; SigChanged]
         end
    /\ (dic !! "vmin" = None -> getVMin call.1 = PyNone)
    /\ (dic !! "vmax" = None -> getVMax call.1 = PyNone)
    /\ (dic !! "colors" = None -> getColorMapLUT call.1 true = PyNone)
    /\ (dic !! "normalization" = None -> getNormalization call.1 = PyStr LINEAR).
Proof.
  intros dic self Hhead Hauto call. subst call.
  rewrite _setFromDict_object, _setFromDict_trace, (verdict_accepted dic) by done.
  split; [done|]. split; [by destruct (dic !! "normalization")|].
  unfold written, getVMin, getVMax, getColorMapLUT, getNormalization,
    get_or_None; simpl.
  repeat split; by intros ->.
Qed.

(** The dictionary [{'name': 'gray'}]. *)
Definition dict_name_only : gmap string pyval := <["name" := PyStr "gray"]> ∅.

(** A colormap with a table and bounds. *)
Definition custom_bounded : Colormap :=
  MkColormap (PyStr "") (PyArray (NdArray [1%nat; 3%nat] [num 0; num 0; num 0]))
    (PyStr LOGARITHM) (PyNum (num 1)) (PyNum (num 100)) None.

Lemma setFromDict_overwrites_witness :
  (_setFromDict dict_name_only custom_bounded).1
  = MkColormap (PyStr "gray") PyNone (PyStr LINEAR) PyNone PyNone (Some true)
  /\ trace (_setFromDict dict_name_only custom_bounded).2
     = [Warning NormalizationNotGiven; SigChanged].
Proof.
  assert (head_accepted dict_name_only) as Hhead.
  { apply head_accepted_gray; vm_compute; reflexivity. }
  assert (autoscale_consistent dict_name_only) as Hauto.
  { unfold autoscale_consistent.
    replace (dict_name_only !! "autoscale") with (@None pyval); [exact I|].
    vm_compute. reflexivity. }
  destruct (setFromDict_overwrites dict_name_only custom_bounded Hhead Hauto)
    as (Hobj & Htrace & _).
  split.
  - rewrite Hobj. vm_compute. reflexivity.
  - rewrite Htrace. vm_compute. reflexivity.
Defined.

(** ** The dictionary round trip *)

Lemma toDict_head_accepted (self : Colormap) (norm : string) :
  _normalization self = PyStr norm ->
  head_accepted (_toDict self)
  <-> (_name self <> PyNone \/ _colors self <> PyNone) /\ norm ∈ NORMALIZATIONS.
Proof.
  intros Hnorm.
  destruct (_toDict_lookup self) as (Hn & Hc & _ & _ & _ & Hno).
  unfold head_accepted, get_or_None. rewrite Hn, Hc, Hno, Hnorm. simpl.
  split.
  - intros [Hhead [H|(s & [= <-] & Hs)]]; [discriminate|done].
  - intros [Hhead Hs]. split; [done|]. right. eauto.
Qed.

Lemma toDict_autoscale_consistent (self : Colormap) :
  autoscale_consistent (_toDict self)
  <-> (_vmin self = PyNone <-> _vmax self = PyNone).
Proof.
  destruct (_toDict_lookup self) as (_ & _ & Hmin & Hmax & Ha & _).
  unfold autoscale_consistent, get_or_None. rewrite Ha, Hmin, Hmax. simpl.
  unfold isAutoscale.
  destruct (_vmin self), (_vmax self); simpl; split;
    try tauto; try (intros; split; congruence);
    try (intros [H1 H2]; discriminate);
    try (intros _; left; discriminate);
    try (intros [H1 H2]; try (by specialize (H1 eq_refl));
         by specialize (H2 eq_refl)).
Qed.

(** X3.  For a colormap whose normalization is a string, [_toDict] followed
    by [_fromDict] succeeds exactly when the name or the table is not
    [None], the normalization is one of the two managed ones, and the bounds
    are both [None] or both set; the colormap it then returns has the same
    name, normalization, bounds and table. *)
Theorem toDict_fromDict_roundtrip :
  forall (name colors : pyval) (norm : string) (vmin vmax : pyval)
         (autoscale : option bool),
    let self := MkColormap name colors (PyStr norm) vmin vmax autoscale in
    let back := _fromDict (_toDict self) in
    ((exists c, result back = Ok c)
     <-> (name <> PyNone \/ colors <> PyNone) /\ norm ∈ NORMALIZATIONS
         /\ (vmin = PyNone <-> vmax = PyNone))
    /\ (forall c, result back = Ok c ->
        same_fields self c /\ _autoscale c = Some (isAutoscale self)).
Proof.
  intros name colors norm vmin vmax autoscale self back. subst back.
  rewrite _fromDict_result.
  pose proof (toDict_head_accepted self norm eq_refl) as Hhead.
  pose proof (toDict_autoscale_consistent self) as Hauto.
  simpl in Hhead, Hauto.
  destruct (_toDict_lookup self) as (Hn & Hc & Hmin & Hmax & Ha & Hno).
  simpl in Hn, Hc, Hmin, Hmax, Hno.
  split.
  - split.
    + intros [c (Hh & Hc' & _)%verdict_Ok_inv]. tauto.
    + intros (H1 & H2 & H3). exists (written (_toDict self)).
      apply verdict_accepted; tauto.
  - intros c (Hh & Hc' & ->)%verdict_Ok_inv.
    unfold written, same_fields, get_or_None. rewrite Hn, Hc, Hmin, Hmax, Hno.
    simpl. repeat split. f_equal. unfold isAutoscale. simpl.
    apply Hauto in Hc'.
    destruct (is_None vmin) eqn:Emin, (is_None vmax) eqn:Emax; try reflexivity.
    + apply is_None_true in Emin. apply is_None_false in Emax. tauto.
    + apply is_None_false in Emin. apply is_None_true in Emax. tauto.
Qed.

(** ** Item access *)

(** X4.  Item access and the dictionary form agree on every key: [self[k]]
    is the value [_toDict()] holds at [k], and [self[k]] raises [KeyError]
    exactly for the keys [_toDict()] does not have, which are all but
    ['autoscale'], ['name'], ['normalization'], ['vmin'], ['vmax'] and
    ['colors']. *)
Theorem getitem_agrees_with_toDict :
  forall (self : Colormap) (item : string),
    __getitem__ self item
    = match _toDict self !! item with
      | Some v => Item v
      | None => KeyError item
      end.
Proof.
  intros self item.
  destruct (_toDict_lookup self) as (Hn & Hc & Hmin & Hmax & Ha & Hno).
  unfold __getitem__.
  destruct (String.eqb item "autoscale") eqn:E1;
    [apply String.eqb_eq in E1; subst; by rewrite Ha|].
  destruct (String.eqb item "name") eqn:E2;
    [apply String.eqb_eq in E2; subst; by rewrite Hn|].
  destruct (String.eqb item "normalization") eqn:E3;
    [apply String.eqb_eq in E3; subst; by rewrite Hno|].
  destruct (String.eqb item "vmin") eqn:E4;
    [apply String.eqb_eq in E4; subst; by rewrite Hmin|].
  destruct (String.eqb item "vmax") eqn:E5;
    [apply String.eqb_eq in E5; subst; by rewrite Hmax|].
  destruct (String.eqb item "colors") eqn:E6;
    [apply String.eqb_eq in E6; subst; by rewrite Hc|].
  apply String.eqb_neq in E1, E2, E3, E4, E5, E6.
  unfold _toDict. by rewrite !lookup_insert_ne, lookup_empty by congruence.
Qed.

(** ** Copy *)

Lemma typed_colormap_plain name table norm vmin vmax autoscale :
  let self := typed_colormap name table norm vmin vmax autoscale in
  plain (_name self) = true /\ plain (_normalization self) = true
  /\ plain (_vmin self) = true /\ plain (_vmax self) = true
  /\ colors_typed (_colors self) = true.
Proof. by destruct name, table, vmin, vmax. Qed.

Lemma copy_typed name table (norm : string) vmin vmax autoscale :
  copy (typed_colormap name table norm vmin vmax autoscale)
  = if String.eqb norm LOGARITHM && (below_one vmin || below_one vmax)
    then None
    else Some (__init__ name (table_colors table) norm vmin vmax).
Proof. by destruct name, table, vmin, vmax. Qed.

Lemma below_one_false (v : option Qc) : below_one v = false <-> loggable v.
Proof.
  unfold loggable. destruct v as [x|]; simpl.
  - rewrite Qc_ltb_ge. split; [by intros H y [= <-]|eauto].
  - split; [by intros _ y|done].
Qed.

Lemma bounds_kept_check normalization vmin vmax :
  bounds_kept normalization vmin vmax ->
  bool_decide (chars normalization ∈ NORMALIZATIONS) = true
  /\ is_constant normalization LOGARITHM && (below_one vmin || below_one vmax)
     = false.
Proof.
  intros [Hin Hlog]. split; [by apply bool_decide_eq_true_2|].
  destruct (is_constant normalization LOGARITHM); [|reflexivity].
  destruct (Hlog eq_refl) as [Hmin%below_one_false Hmax%below_one_false].
  by rewrite Hmin, Hmax.
Qed.

Lemma float_or_None_exact (v : option Qc) :
  float_bound v -> float_or_None v = Ok (of_option PyNum v).
Proof.
  intros Hv. destruct v as [x|]; [|reflexivity].
  simpl. by rewrite (Hv x eq_refl).
Qed.


(** The constructor when it keeps the bounds. *)
Lemma init_kept name colors normalization vmin vmax :
  bounds_kept normalization vmin vmax ->
  __init__ name colors normalization vmin vmax
  = Eff [] (table ← _setColors colors;
            lo ← float_or_None vmin;
            hi ← float_or_None vmax;
            Ok (MkColormap (of_option PyStr name) table
                  (PyStr (chars normalization)) lo hi None)).
Proof.
  intros [Hin Hb]%bounds_kept_check. rewrite init_run, Hin. cbv zeta.
  by rewrite Hb.
Qed.


(** The constructor on a normalization it does not manage. *)
Lemma init_unmanaged name colors normalization vmin vmax :
  chars normalization ∉ NORMALIZATIONS ->
  __init__ name colors normalization vmin vmax = Eff [] (Raise AssertionError).
Proof.
  intros Hout. by rewrite init_run, (bool_decide_eq_false_2 _ Hout).
Qed.

(** Where [copy] is given, the constructor does the same for a string
    built at run time as for the constant with its characters. *)
Lemma init_object_irrelevant name colors (s : string) vmin vmax :
  String.eqb s LOGARITHM && (below_one vmin || below_one vmax) = false ->
  __init__ name colors (built s) vmin vmax = __init__ name colors s vmin vmax.
Proof.
  intros Hb. rewrite !init_run. simpl.
  destruct (bool_decide (s ∈ NORMALIZATIONS)); [|reflexivity].
  unfold is_constant. simpl. by rewrite Hb.
Qed.

(** The constructor on the numbers 2^53 + 1 and 10^400, a built ['log'] and
    the constant: the first is stored as the double 2^53, the second raises
    [OverflowError], and the bound 0.5 is kept for the built string and
    discarded for the constant. *)
Example init_conversions :
  result (__init__ (Some "gray") ColNone LINEAR (Some (num (2 ^ 53 + 1))) None)
  = Ok (MkColormap (PyStr "gray") PyNone (PyStr LINEAR) (PyNum (num (2 ^ 53)))
          PyNone None)
  /\ result (__init__ (Some "gray") ColNone LINEAR (Some (num (10 ^ 400))) None)
     = Raise OverflowError
  /\ __init__ (Some "gray") ColNone (built LOGARITHM) (Some (Q2Qc (1 # 2))) None
     = Eff [] (Ok (MkColormap (PyStr "gray") PyNone (PyStr LOGARITHM)
                     (PyNum (Q2Qc (1 # 2))) PyNone None))
  /\ __init__ (Some "gray") ColNone LOGARITHM (Some (Q2Qc (1 # 2))) None
     = Eff [Warning (UnsupportedLogBounds (Some (Q2Qc (1 # 2))) None)]
         (Ok (MkColormap (PyStr "gray") PyNone (PyStr LOGARITHM) PyNone PyNone
                None)).
Proof. repeat split; vm_compute; reflexivity. Qed.

Lemma eq_typed_same name table norm vmin vmax autoscale autoscale' :
  __eq__ (typed_colormap name table norm vmin vmax autoscale)
    (typed_colormap name table norm vmin vmax autoscale') = Ok true.
Proof.
  destruct (typed_colormap_plain name table norm vmin vmax autoscale)
    as (_ & _ & _ & _ & Hc).
  unfold __eq__, getName, getNormalization, getVMin, getVMax, getColorMapLUT.
  destruct name, vmin, vmax; simpl in *;
    rewrite ?String.eqb_refl, ?Qc_eqb_refl; simpl;
    f_equal; by apply array_equal_typed.
Qed.

(** X5.  [copy()] of a colormap with linear normalization, or with
    logarithmic normalization and no bound below 1, whose bounds are [None]
    or floats, returns without logging a colormap with the same name,
    table, normalization and bounds, which [__eq__] finds equal to the
    original. *)
Theorem copy_faithful :
  forall (name : option string) (table : option ndarray) (norm : string)
         (vmin vmax : option Qc) (autoscale : option bool),
    bounds_kept norm vmin vmax ->
    float_bound vmin -> float_bound vmax ->
    let self := typed_colormap name table norm vmin vmax autoscale in
    let clone := typed_colormap name table norm vmin vmax None in
    copy self = Some (Eff [] (Ok clone))
    /\ __eq__ self clone = Ok true.
Proof.
  intros name table norm vmin vmax autoscale Hkept Hmin Hmax self clone.
  split; [|apply eq_typed_same].
  subst self. rewrite copy_typed.
  destruct (bounds_kept_check _ _ _ Hkept) as [_ Hb].
  unfold is_constant in Hb. simpl in Hb. rewrite Hb.
  rewrite (init_kept _ _ _ _ _ Hkept), !float_or_None_exact by done.
  by destruct table.
Qed.

Lemma copy_faithful_witness :
  let self :=
    typed_colormap (Some "gray") None LOGARITHM (Some (num 1)) (Some (num 100))
      (Some false) in
  let clone :=
    typed_colormap (Some "gray") None LOGARITHM (Some (num 1)) (Some (num 100))
      None in
  copy self = Some (Eff [] (Ok clone)) /\ __eq__ self clone = Ok true.
Proof.
  apply (copy_faithful (Some "gray") None LOGARITHM (Some (num 1))
           (Some (num 100)) (Some false)).
  - split; [apply list_elem_of_In; simpl; tauto|]. intros _.
    split; intros x [= <-]; apply Qc_ltb_ge; vm_compute; reflexivity.
  - intros x [= <-]. vm_compute. reflexivity.
  - intros x [= <-]. vm_compute. reflexivity.
Defined.

(** X7.  After [setNormalization] with a string that is neither ['linear']
    nor ['log'], [copy()] raises [AssertionError]: the constructor it calls
    asserts what the setter did not check. *)
Theorem copy_after_unmanaged_normalization :
  forall (name : option string) (table : option ndarray) (norm norm' : string)
         (vmin vmax : option Qc) (autoscale : option bool),
    norm' ∉ NORMALIZATIONS ->
    let self := typed_colormap name table norm vmin vmax autoscale in
    copy (setNormalization norm' self).1 = Some (Eff [] (Raise AssertionError)).
Proof.
  intros name table norm norm' vmin vmax autoscale Hout self.
  change (setNormalization norm' self).1
    with (typed_colormap name table norm' vmin vmax autoscale).
  rewrite copy_typed.
  destruct (String.eqb norm' LOGARITHM) eqn:E.
  - apply String.eqb_eq in E. subst norm'. destruct Hout.
    apply list_elem_of_In. simpl. tauto.
  - simpl. by rewrite init_unmanaged.
Qed.

Lemma copy_after_unmanaged_normalization_witness :
  copy (setNormalization "sqrt"
          (typed_colormap (Some "gray") None LINEAR None None None)).1
  = Some (Eff [] (Raise AssertionError)).
Proof.
  apply (copy_after_unmanaged_normalization (Some "gray") None LINEAR "sqrt"
           None None None).
  intros H. apply list_elem_of_In in H. simpl in H.
  destruct H as [H|[H|[]]]; discriminate.
Defined.

(** ** Construction *)



(** X9.  With a managed normalization, unless it is the object [LOGARITHM]
    with a bound below 1, and with bounds that are [None] or floats, the
    constructor logs nothing and the getters return the arguments as given:
    the bounds are not compared with each other, and under ['linear'], or
    for a ['log'] string that is not the object [LOGARITHM], not with
    anything, so a [vmin] above [vmax], a negative bound or a bound below 1
    is stored. *)
Theorem init_keeps_arguments :
  forall (name : option string) (colors : colors_arg)
         (normalization : str_object) (vmin vmax : option Qc),
    bounds_kept normalization vmin vmax ->
    float_bound vmin -> float_bound vmax ->
    colors <> ColOther ->
    exists self,
      __init__ name colors normalization vmin vmax = Eff [] (Ok self)
      /\ getName self = of_option PyStr name
      /\ getNormalization self = PyStr (chars normalization)
      /\ getVMin self = of_option PyNum vmin
      /\ getVMax self = of_option PyNum vmax
      /\ _setColors colors = Ok (getColorMapLUT self true).
Proof.
  intros name colors normalization vmin vmax Hkept Hmin Hmax Hcolors.
  rewrite (init_kept _ _ _ _ _ Hkept), !float_or_None_exact by done.
  destruct colors; try done; eexists; repeat split.
Qed.

Lemma init_keeps_arguments_witness :
  (exists self,
     __init__ (Some "gray") ColNone LINEAR (Some (num 5)) (Some (num (-2)))
     = Eff [] (Ok self)
     /\ getName self = PyStr "gray"
     /\ getNormalization self = PyStr LINEAR
     /\ getVMin self = PyNum (num 5)
     /\ getVMax self = PyNum (num (-2))
     /\ _setColors ColNone = Ok (getColorMapLUT self true))
  /\ (exists self,
        __init__ (Some "gray") ColNone (built LOGARITHM) (Some (Q2Qc (1 # 2))) None
        = Eff [] (Ok self)
        /\ getName self = PyStr "gray"
        /\ getNormalization self = PyStr LOGARITHM
        /\ getVMin self = PyNum (Q2Qc (1 # 2))
        /\ getVMax self = PyNone
        /\ _setColors ColNone = Ok (getColorMapLUT self true)).
Proof.
  split.
  - apply (init_keeps_arguments (Some "gray") ColNone LINEAR (Some (num 5))
             (Some (num (-2)))).
    + split; [apply list_elem_of_In; simpl; tauto|discriminate].
    + intros x [= <-]. vm_compute. reflexivity.
    + intros x [= <-]. vm_compute. reflexivity.
    + discriminate.
  - apply (init_keeps_arguments (Some "gray") ColNone (built LOGARITHM)
             (Some (Q2Qc (1 # 2))) None).
    + split; [apply list_elem_of_In; simpl; tauto|discriminate].
    + intros x [= <-]. vm_compute. reflexivity.
    + intros x [=].
    + discriminate.
Defined.

(** ** The color table *)

(** X10.  [setColorMapLUT] with an array, list or tuple of first dimension
    [n] returns normally and emits [sigChanged] once; afterwards the table
    is the array, or [None] when [n] is 0; the name is the empty string
    unless [keepName] is true, in which case it is unchanged; normalization
    and bounds are unchanged. *)
Theorem setColorMapLUT_stores :
  forall (self : Colormap) (colors : colors_arg) (a : ndarray) (n : nat)
         (dims : list nat) (keepName : bool),
    colors = ColArray a \/ colors = ColSeq a ->
    shape a = n :: dims ->
    let call := setColorMapLUT colors keepName self in
    call.2 = Eff [SigChanged] (Ok tt)
    /\ getColorMapLUT call.1 true = (if Nat.eqb n 0 then PyNone else PyArray a)
    /\ getName call.1 = (if keepName then getName self else PyStr "")
    /\ getNormalization call.1 = getNormalization self
    /\ getVMin call.1 = getVMin self
    /\ getVMax call.1 = getVMax self.
Proof.
  intros self colors a n dims keepName Hcolors Hshape call. subst call.
  unfold setColorMapLUT.
  destruct Hcolors as [-> | ->]; simpl; rewrite Hshape;
    destruct (Nat.eqb n 0), keepName; repeat split.
Qed.

Lemma setColorMapLUT_stores_witness :
  let table := NdArray [2%nat; 3%nat] [num 0; num 0; num 0; num 1; num 1; num 1] in
  let call := setColorMapLUT (ColSeq table) false gray_linear in
  call.2 = Eff [SigChanged] (Ok tt)
  /\ getColorMapLUT call.1 true = PyArray table
  /\ getName call.1 = PyStr "".
Proof.
  intros table call.
  destruct (setColorMapLUT_stores gray_linear (ColSeq table) table 2 [3%nat]
              false (or_intror eq_refl) eq_refl) as (H1 & H2 & H3 & _).
  repeat split; assumption.
Defined.

(** X11.  [setColorMapLUT] on what is not a table.  With an argument of a
    type [_setColors] rejects it raises [ValueError] and the colormap is
    unchanged.  With [None] it raises [TypeError] from [len(None)], after
    [_setColors] has already cleared the table: the table is [None]
    afterwards, the name is kept even when [keepName] is false, and no
    [sigChanged] is emitted. *)
Theorem setColorMapLUT_not_a_table :
  forall (self : Colormap) (keepName : bool),
    setColorMapLUT ColOther keepName self
    = (self, Eff [] (Raise (ValueError BadColorsType)))
    /\ let call := setColorMapLUT ColNone keepName self in
       call.2 = Eff [] (Raise TypeError)
       /\ getColorMapLUT call.1 true = PyNone
       /\ getName call.1 = getName self
       /\ getNormalization call.1 = getNormalization self
       /\ getVMin call.1 = getVMin self
       /\ getVMax call.1 = getVMax self.
Proof. intros. repeat split. Qed.

(** ** Bounds *)

(** X12.  [setVMin] followed by [setVMax], in either order, leaves the
    colormap [setVMinVMax] leaves, but emits [sigChanged] twice where
    [setVMinVMax] emits it once. *)
Theorem setVMin_setVMax_compose :
  forall (self : Colormap) (vmin vmax : pyval),
    let both := setVMinVMax vmin vmax self in
    let first_min := setVMin vmin self in
    let then_max := setVMax vmax first_min.1 in
    let first_max := setVMax vmax self in
    let then_min := setVMin vmin first_max.1 in
    then_max.1 = both.1 /\ then_min.1 = both.1
    /\ trace both.2 = [SigChanged]
    /\ trace first_min.2 ++ trace then_max.2 = [SigChanged; SigChanged]
    /\ trace first_max.2 ++ trace then_min.2 = [SigChanged; SigChanged].
Proof. intros. repeat split. Qed.

(** ** The display range, further *)

(** X13.  Without data [getColorMapRange] corrects nothing: a stored bound
    is returned as it is, also a negative one under ['log'], and a bound
    that is [None] is replaced by the default, which is the linear one (0
    or 1) for ['linear'] and the logarithmic one (1 or 10) for every other
    normalization string. *)
Theorem getColorMapRange_without_data :
  forall (name colors : pyval) (autoscale : option bool) (norm : string)
         (vmin vmax : option Qc),
    let self :=
      MkColormap name colors (PyStr norm)
        (of_option PyNum vmin) (of_option PyNum vmax) autoscale in
    getColorMapRange self None
    = Ok (PyNum (default (if String.eqb norm LINEAR then num 0 else num 1) vmin),
          PyNum (default (if String.eqb norm LINEAR then num 1 else num 10) vmax)).
Proof.
  intros name colors autoscale norm vmin vmax self. subst self.
  unfold getColorMapRange, _getDefaultMin, _getDefaultMax.
  destruct vmin, vmax; simpl; by destruct (String.eqb norm LINEAR).
Qed.

(** X14.  With data and a normalization string other than ['log'],
    [getColorMapRange] corrects nothing either: each bound is the stored
    one if there is one, negative or not, and otherwise the minimum,
    respectively the maximum, of the data. *)
Theorem getColorMapRange_not_log :
  forall (name colors : pyval) (autoscale : option bool) (norm : string)
         (vmin vmax : option Qc) (data : samples),
    norm <> LOGARITHM ->
    let self :=
      MkColormap name colors (PyStr norm)
        (of_option PyNum vmin) (of_option PyNum vmax) autoscale in
    let stats := min_max data true in
    getColorMapRange self (Some data)
    = Ok (PyNum (default (minimum stats) vmin),
          PyNum (default (maximum stats) vmax)).
Proof.
  intros name colors autoscale norm vmin vmax data Hnorm self stats.
  subst self stats. apply String.eqb_neq in Hnorm.
  unfold getColorMapRange, getNormalization.
  destruct vmin, vmax; simpl; by rewrite Hnorm.
Qed.

Lemma getColorMapRange_not_log_witness :
  getColorMapRange
    (MkColormap (PyStr "gray") PyNone (PyStr LINEAR)
       (of_option PyNum (Some (num (-7)))) (of_option PyNum None) None)
    (Some (Samples (num 1) [num 2; num 3]))
  = Ok (PyNum (default (minimum (min_max (Samples (num 1) [num 2; num 3]) true))
                 (Some (num (-7)))),
        PyNum (default (maximum (min_max (Samples (num 1) [num 2; num 3]) true))
                 None)).
Proof.
  apply (getColorMapRange_not_log (PyStr "gray") PyNone None LINEAR
           (Some (num (-7))) None (Samples (num 1) [num 2; num 3])).
  discriminate.
Defined.

(** X15.  Under ['log'] with both bounds [None], for data with a negative
    sample and a positive sample, [getColorMapRange] returns the least
    strictly positive sample as [vmin] and the greatest sample as [vmax]:
    two numbers, with [0 < vmin <= vmax]. *)
Theorem getColorMapRange_log_mixed_sign :
  forall (name colors : pyval) (autoscale : option bool) (data : samples),
    (exists x, x ∈ values data /\ (x < 0)%Qc) ->
    (exists x, x ∈ values data /\ (0 < x)%Qc) ->
    let self := MkColormap name colors (PyStr LOGARITHM) PyNone PyNone autoscale in
    exists lo hi,
      getColorMapRange self (Some data) = Ok (PyNum lo, PyNum hi)
      /\ least_positive (Some lo) (values data)
      /\ greatest hi (values data)
      /\ (0 < lo)%Qc /\ (lo <= hi)%Qc.
Proof.
  intros name colors autoscale data (xn & Hxn & Hneg) (xp & Hxp & Hpos) self.
  subst self.
  pose proof (getColorMapRange_log name colors autoscale None None data) as Hrun.
  cbv zeta in Hrun. unfold default in Hrun.
  cbn [from_option id of_option] in Hrun. rewrite Hrun.
  destruct (min_max_summarises data) as ((Hmin_in & Hmin) & (Hmax_in & Hmax) & Hp).
  assert (Qc_ltb (minimum (min_max data true)) 0 = true) as ->.
  { apply Qc_ltb_lt. apply (Qcle_lt_trans _ xn); [by apply Hmin|done]. }
  assert (Qc_ltb (maximum (min_max data true)) 0 = false) as ->.
  { apply Qc_ltb_ge. apply Qclt_le_weak.
    apply (Qclt_le_trans _ xp); [exact Hpos|by apply Hmax]. }
  destruct (min_positive (min_max data true)) as [p|]; simpl in *.
  - destruct Hp as (Hp_in & Hp_pos & Hp_least).
    exists p, (maximum (min_max data true)).
    repeat split; try done. by apply Hmax.
  - by destruct (Hp xp).
Qed.

Lemma getColorMapRange_log_mixed_sign_witness :
  exists lo hi,
    getColorMapRange
      (MkColormap (PyStr "gray") PyNone (PyStr LOGARITHM) PyNone PyNone None)
      (Some (Samples (num (-3)) [num (-1); num 0; num 2; num 4]))
    = Ok (PyNum lo, PyNum hi)
    /\ least_positive (Some lo)
         (values (Samples (num (-3)) [num (-1); num 0; num 2; num 4]))
    /\ greatest hi (values (Samples (num (-3)) [num (-1); num 0; num 2; num 4]))
    /\ (0 < lo)%Qc /\ (lo <= hi)%Qc.
Proof.
  apply (getColorMapRange_log_mixed_sign (PyStr "gray") PyNone None
           (Samples (num (-3)) [num (-1); num 0; num 2; num 4])).
  - exists (num (-3)). split.
    + apply list_elem_of_In. simpl. by left.
    + apply Qc_ltb_lt. vm_compute. reflexivity.
  - exists (num 2). split.
    + apply list_elem_of_In. simpl. tauto.
    + apply Qc_ltb_lt. vm_compute. reflexivity.
Defined.

(** X16.  Under ['log'] with both bounds [None], data with no negative
    sample is not corrected: [getColorMapRange] returns its minimum and its
    maximum.  The test is [vmin < 0], so when the data contain 0 the [vmin]
    returned for the logarithmic scale is 0. *)
Theorem getColorMapRange_log_nonnegative :
  forall (name colors : pyval) (autoscale : option bool) (data : samples),
    (forall x, x ∈ values data -> (0 <= x)%Qc) ->
    let self := MkColormap name colors (PyStr LOGARITHM) PyNone PyNone autoscale in
    let stats := min_max data true in
    getColorMapRange self (Some data)
    = Ok (PyNum (minimum stats), PyNum (maximum stats))
    /\ least (minimum stats) (values data)
    /\ greatest (maximum stats) (values data)
    /\ (0%Qc ∈ values data -> minimum stats = 0%Qc).
Proof.
  intros name colors autoscale data Hnonneg self stats. subst self stats.
  pose proof (getColorMapRange_log name colors autoscale None None data) as Hrun.
  cbv zeta in Hrun. unfold default in Hrun.
  cbn [from_option id of_option] in Hrun. rewrite Hrun.
  destruct (min_max_summarises data) as ((Hmin_in & Hmin) & (Hmax_in & Hmax) & _).
  assert (Qc_ltb (minimum (min_max data true)) 0 = false) as ->.
  { apply Qc_ltb_ge. by apply Hnonneg. }
  assert (Qc_ltb (maximum (min_max data true)) 0 = false) as ->.
  { apply Qc_ltb_ge. by apply Hnonneg. }
  repeat split; try done.
  intros Hzero. apply Qcle_antisym; [by apply Hmin|by apply Hnonneg].
Qed.

Lemma getColorMapRange_log_nonnegative_witness :
  getColorMapRange
    (MkColormap (PyStr "gray") PyNone (PyStr LOGARITHM) PyNone PyNone None)
    (Some (Samples (num 0) [num 1; num 2]))
  = Ok (PyNum (minimum (min_max (Samples (num 0) [num 1; num 2]) true)),
        PyNum (maximum (min_max (Samples (num 0) [num 1; num 2]) true)))
  /\ minimum (min_max (Samples (num 0) [num 1; num 2]) true) = 0%Qc.
Proof.
  assert (forall x, x ∈ values (Samples (num 0) [num 1; num 2]) -> (0 <= x)%Qc)
    as Hnonneg.
  { intros x Hx. apply list_elem_of_In in Hx. simpl in Hx.
    apply Qc_ltb_ge.
    destruct Hx as [<-|[<-|[<-|[]]]]; vm_compute; reflexivity. }
  destruct (getColorMapRange_log_nonnegative (PyStr "gray") PyNone None
              (Samples (num 0) [num 1; num 2]) Hnonneg) as (Hrun & _ & _ & Hzero).
  split; [exact Hrun|]. apply Hzero.
  apply list_elem_of_In. simpl. by left.
Defined.



(** X18.  Under ['log'] with data, a stored bound that is not negative is
    returned as it is and the data are not consulted for it: with both
    bounds stored and non-negative the range is the stored pair, also when
    a bound is below 1 or the data lie outside the pair. *)
Theorem getColorMapRange_log_stored_bounds :
  forall (name colors : pyval) (autoscale : option bool) (lo hi : Qc)
         (data : samples),
    (0 <= lo)%Qc -> (0 <= hi)%Qc ->
    let self :=
      MkColormap name colors (PyStr LOGARITHM) (PyNum lo) (PyNum hi) autoscale in
    getColorMapRange self (Some data) = Ok (PyNum lo, PyNum hi).
Proof.
  intros name colors autoscale lo hi data Hlo Hhi self. subst self.
  pose proof (getColorMapRange_log name colors autoscale (Some lo) (Some hi) data)
    as Hrun.
  cbv zeta in Hrun. unfold default in Hrun.
  cbn [from_option id of_option] in Hrun. rewrite Hrun.
  apply Qc_ltb_ge in Hlo, Hhi. by rewrite Hlo, Hhi.
Qed.

Lemma getColorMapRange_log_stored_bounds_witness :
  getColorMapRange
    (MkColormap (PyStr "gray") PyNone (PyStr LOGARITHM)
       (PyNum (Q2Qc (1 # 2))) (PyNum (num 2)) None)
    (Some (Samples (num (-5)) [num 100]))
  = Ok (PyNum (Q2Qc (1 # 2)), PyNum (num 2)).
Proof.
  apply (getColorMapRange_log_stored_bounds (PyStr "gray") PyNone None
           (Q2Qc (1 # 2)) (num 2) (Samples (num (-5)) [num 100]));
    apply Qc_ltb_ge; vm_compute; reflexivity.
Defined.
